(** * InstaPose AI: capture dispatch, session state and gallery store

    A shallow embedding of [App.tsx] (the state hooks of the [App]
    component, [handleCaptureFrame], the trigger functions, [reset],
    [deleteFromGallery], the gallery initialiser, the persist effect and the
    conditions under which the action buttons are rendered and disabled),
    of [extractPoseLandmarks] from [services/geminiService.ts] and of the
    records of [types.ts].

    - React state is one record, [AppState]; a call [setX(v)] is the record
      update [setX v].
    - Exceptions and rejected promises are values of [JS.completion];
      [try]/[catch] is [JS.try_catch].
    - The asynchronous handler is cut at its [await]s: [handleCaptureFrame]
      is its synchronous prefix, [resume] its continuations.  [dispatch]
      runs one invocation to its end with nothing in between; [step] is the
      event loop, where clicks, settling calls and timeouts interleave.
    - An event is handled against the latest render: the values a callback
      closes over are those of the state at the time of the click.
    - [number] fields are integers ([Date.now()] readings, a score for which
      the response schema asks an integer), landmark coordinates are
      rationals.
    - [JSON] and [localStorage] are models of the platform: see there for
      what they cover. *)

From Stdlib Require Import ZArith QArith String Ascii List Bool Lia Arith.
From Stdlib Require Import DecimalString DecimalZ DecimalFacts DecimalPos.
Import ListNotations.
Close Scope Q_scope.
Open Scope string_scope.
Open Scope list_scope.

Set Implicit Arguments.
Set Warnings "-register-all".

(** ** The JavaScript platform *)

Module JS.

(** A thrown value: [new Error(message)], or whatever a rejected platform
    call carries. *)
Inductive exn : Type :=
| Error (message : string).

(** The outcome of evaluating an expression that may throw, and of
    [await]ing a promise that may reject. *)
Inductive completion (A : Type) : Type :=
| Normal (a : A)
| Throw (e : exn).

Arguments Normal {A} a.
Arguments Throw {A} e.

Definition bind {A B : Type} (c : completion A) (k : A -> completion B)
  : completion B :=
  match c with
  | Normal a => k a
  | Throw e => Throw e
  end.

(** [try { body } catch (e) { handler }] *)
Definition try_catch {A : Type} (body : completion A)
           (handler : exn -> completion A) : completion A :=
  match body with
  | Normal a => Normal a
  | Throw e => handler e
  end.

Definition returns {A : Type} (c : completion A) : Prop :=
  exists a, c = Normal a.

(** Truthiness of a [string | null] value: [null] and the empty string
    are falsy. *)
Definition truthy (v : option string) : bool :=
  match v with
  | None => false
  | Some s => negb (String.eqb s EmptyString)
  end.

(** [n.toString()] for an integer-valued number. *)
Definition toString (n : Z) : string :=
  NilZero.string_of_int (Z.to_int n).

End JS.

Import JS.

Notation "x <- c ;; k" := (JS.bind c (fun x => k))
  (at level 61, c at next level, right associativity).

(** ** types.ts *)

(** ['Good'] is a value of two unions: [GoodLight] for the lighting
    quality, [Good] for the match status. *)
Inductive LightingQuality := Excellent | GoodLight | Fair | Poor.
Inductive ClutterLevel := Clean | Moderate | Cluttered.
Inductive Difficulty := Easy | Medium | Hard.
Inductive MatchStatus := Perfect | Good | NeedsImprovement.

Record LightingAnalysis := {
  quality : LightingQuality;
  direction : string;
  lighting_suggestion : string
}.

Record BackgroundAnalysis := {
  clutterLevel : ClutterLevel;
  background_suggestion : string
}.

Record PoseSuggestion := {
  title : string;
  description : string;
  difficulty : Difficulty;
  steps : list string
}.

Record AnalysisResult := {
  environment : string;
  lighting : LightingAnalysis;
  background : BackgroundAnalysis;
  suggestedPose : PoseSuggestion
}.

(** [score] is a [number]; the response schema asks for an integer. *)
Record PoseFeedback := {
  score : Z;
  matchStatus : MatchStatus;
  adjustments : list string
}.

Record Point := { x : Q; y : Q }.

Record PoseLandmarks := {
  nose : option Point;
  leftShoulder : option Point;
  rightShoulder : option Point;
  leftElbow : option Point;
  rightElbow : option Point;
  leftWrist : option Point;
  rightWrist : option Point;
  leftHip : option Point;
  rightHip : option Point
}.

(** [referenceImage?: string | null]: [None] is [null]. *)
Record GalleryImage := {
  id : string;
  imageData : string;
  referenceImage : option string;
  image_score : Z;
  timestamp : Z
}.

Inductive Gender := FEMALE | MALE | NEUTRAL.
Inductive PoseStyle := CASUAL | PROFESSIONAL | CREATIVE | STREET | GLAMOUR.

(** ** App.tsx: component state *)

Inductive Intent := analyze | grade | save.

Record AppState := {
  isAnalyzing : bool;
  isGrading : bool;
  analysisResult : option AnalysisResult;
  poseFeedback : option PoseFeedback;
  generatedPoseImage : option string;
  poseLandmarks : option PoseLandmarks;
  gallery : list GalleryImage;
  selectedGender : Gender;
  selectedStyle : PoseStyle;
  error : option string;
  autoSaveMessage : option string;
  flash : bool;
  captureIntent : Intent
}.

Definition setIsAnalyzing (v : bool) (s : AppState) : AppState :=
  {| isAnalyzing := v; isGrading := isGrading s;
     analysisResult := analysisResult s; poseFeedback := poseFeedback s;
     generatedPoseImage := generatedPoseImage s;
     poseLandmarks := poseLandmarks s; gallery := gallery s;
     selectedGender := selectedGender s; selectedStyle := selectedStyle s;
     error := error s; autoSaveMessage := autoSaveMessage s;
     flash := flash s; captureIntent := captureIntent s |}.

Definition setIsGrading (v : bool) (s : AppState) : AppState :=
  {| isAnalyzing := isAnalyzing s; isGrading := v;
     analysisResult := analysisResult s; poseFeedback := poseFeedback s;
     generatedPoseImage := generatedPoseImage s;
     poseLandmarks := poseLandmarks s; gallery := gallery s;
     selectedGender := selectedGender s; selectedStyle := selectedStyle s;
     error := error s; autoSaveMessage := autoSaveMessage s;
     flash := flash s; captureIntent := captureIntent s |}.

Definition setAnalysisResult (v : option AnalysisResult) (s : AppState)
  : AppState :=
  {| isAnalyzing := isAnalyzing s; isGrading := isGrading s;
     analysisResult := v; poseFeedback := poseFeedback s;
     generatedPoseImage := generatedPoseImage s;
     poseLandmarks := poseLandmarks s; gallery := gallery s;
     selectedGender := selectedGender s; selectedStyle := selectedStyle s;
     error := error s; autoSaveMessage := autoSaveMessage s;
     flash := flash s; captureIntent := captureIntent s |}.

Definition setPoseFeedback (v : option PoseFeedback) (s : AppState)
  : AppState :=
  {| isAnalyzing := isAnalyzing s; isGrading := isGrading s;
     analysisResult := analysisResult s; poseFeedback := v;
     generatedPoseImage := generatedPoseImage s;
     poseLandmarks := poseLandmarks s; gallery := gallery s;
     selectedGender := selectedGender s; selectedStyle := selectedStyle s;
     error := error s; autoSaveMessage := autoSaveMessage s;
     flash := flash s; captureIntent := captureIntent s |}.

Definition setGeneratedPoseImage (v : option string) (s : AppState)
  : AppState :=
  {| isAnalyzing := isAnalyzing s; isGrading := isGrading s;
     analysisResult := analysisResult s; poseFeedback := poseFeedback s;
     generatedPoseImage := v;
     poseLandmarks := poseLandmarks s; gallery := gallery s;
     selectedGender := selectedGender s; selectedStyle := selectedStyle s;
     error := error s; autoSaveMessage := autoSaveMessage s;
     flash := flash s; captureIntent := captureIntent s |}.

Definition setPoseLandmarks (v : option PoseLandmarks) (s : AppState)
  : AppState :=
  {| isAnalyzing := isAnalyzing s; isGrading := isGrading s;
     analysisResult := analysisResult s; poseFeedback := poseFeedback s;
     generatedPoseImage := generatedPoseImage s;
     poseLandmarks := v; gallery := gallery s;
     selectedGender := selectedGender s; selectedStyle := selectedStyle s;
     error := error s; autoSaveMessage := autoSaveMessage s;
     flash := flash s; captureIntent := captureIntent s |}.

(** [setGallery(prev => f(prev))]: the functional form, applied to the
    state current when the update runs. *)
Definition setGallery (f : list GalleryImage -> list GalleryImage)
           (s : AppState) : AppState :=
  {| isAnalyzing := isAnalyzing s; isGrading := isGrading s;
     analysisResult := analysisResult s; poseFeedback := poseFeedback s;
     generatedPoseImage := generatedPoseImage s;
     poseLandmarks := poseLandmarks s; gallery := f (gallery s);
     selectedGender := selectedGender s; selectedStyle := selectedStyle s;
     error := error s; autoSaveMessage := autoSaveMessage s;
     flash := flash s; captureIntent := captureIntent s |}.

Definition setSelectedGender (v : Gender) (s : AppState) : AppState :=
  {| isAnalyzing := isAnalyzing s; isGrading := isGrading s;
     analysisResult := analysisResult s; poseFeedback := poseFeedback s;
     generatedPoseImage := generatedPoseImage s;
     poseLandmarks := poseLandmarks s; gallery := gallery s;
     selectedGender := v; selectedStyle := selectedStyle s;
     error := error s; autoSaveMessage := autoSaveMessage s;
     flash := flash s; captureIntent := captureIntent s |}.

Definition setSelectedStyle (v : PoseStyle) (s : AppState) : AppState :=
  {| isAnalyzing := isAnalyzing s; isGrading := isGrading s;
     analysisResult := analysisResult s; poseFeedback := poseFeedback s;
     generatedPoseImage := generatedPoseImage s;
     poseLandmarks := poseLandmarks s; gallery := gallery s;
     selectedGender := selectedGender s; selectedStyle := v;
     error := error s; autoSaveMessage := autoSaveMessage s;
     flash := flash s; captureIntent := captureIntent s |}.

Definition setError (v : option string) (s : AppState) : AppState :=
  {| isAnalyzing := isAnalyzing s; isGrading := isGrading s;
     analysisResult := analysisResult s; poseFeedback := poseFeedback s;
     generatedPoseImage := generatedPoseImage s;
     poseLandmarks := poseLandmarks s; gallery := gallery s;
     selectedGender := selectedGender s; selectedStyle := selectedStyle s;
     error := v; autoSaveMessage := autoSaveMessage s;
     flash := flash s; captureIntent := captureIntent s |}.

Definition setAutoSaveMessage (v : option string) (s : AppState) : AppState :=
  {| isAnalyzing := isAnalyzing s; isGrading := isGrading s;
     analysisResult := analysisResult s; poseFeedback := poseFeedback s;
     generatedPoseImage := generatedPoseImage s;
     poseLandmarks := poseLandmarks s; gallery := gallery s;
     selectedGender := selectedGender s; selectedStyle := selectedStyle s;
     error := error s; autoSaveMessage := v;
     flash := flash s; captureIntent := captureIntent s |}.

Definition setFlash (v : bool) (s : AppState) : AppState :=
  {| isAnalyzing := isAnalyzing s; isGrading := isGrading s;
     analysisResult := analysisResult s; poseFeedback := poseFeedback s;
     generatedPoseImage := generatedPoseImage s;
     poseLandmarks := poseLandmarks s; gallery := gallery s;
     selectedGender := selectedGender s; selectedStyle := selectedStyle s;
     error := error s; autoSaveMessage := autoSaveMessage s;
     flash := v; captureIntent := captureIntent s |}.

(** [captureIntent.current = v] *)
Definition setCaptureIntent (v : Intent) (s : AppState) : AppState :=
  {| isAnalyzing := isAnalyzing s; isGrading := isGrading s;
     analysisResult := analysisResult s; poseFeedback := poseFeedback s;
     generatedPoseImage := generatedPoseImage s;
     poseLandmarks := poseLandmarks s; gallery := gallery s;
     selectedGender := selectedGender s; selectedStyle := selectedStyle s;
     error := error s; autoSaveMessage := autoSaveMessage s;
     flash := flash s; captureIntent := v |}.

(** The state after the [useState] initialisers, for a gallery [g] obtained
    from the gallery initialiser. *)
Definition initialState (g : list GalleryImage) : AppState :=
  {| isAnalyzing := false; isGrading := false;
     analysisResult := None; poseFeedback := None;
     generatedPoseImage := None; poseLandmarks := None;
     gallery := g;
     selectedGender := FEMALE; selectedStyle := CASUAL;
     error := None; autoSaveMessage := None;
     flash := false; captureIntent := analyze |}.

(** ** App.tsx: [handleCaptureFrame] *)

(** The calls into [services/geminiService.ts] that the handler awaits. *)
Inductive ServiceCall :=
| analyzeSceneAndSuggest (base64Image : string) (gender : Gender)
                         (style : PoseStyle)
| generatePoseReference (poseDescription : string) (gender : Gender)
                        (style : PoseStyle)
| extractPoseLandmarks (base64Image : string)
| evaluatePoseMatch (base64Image : string) (targetPoseDescription : string).

(** The [await] at which an invocation of the handler is suspended.  The
    invocation keeps the [selectedGender] and [selectedStyle] of the render
    that created it; they are used again by the second call. *)
Inductive Suspended :=
| AwaitAnalysis (gender : Gender) (style : PoseStyle)
| AwaitReference
| AwaitLandmarks
| AwaitFeedback.

(** Callbacks handed to [setTimeout]. *)
Inductive Timeout :=
| FlashOff
| ClearAutoSaveMessage.

Definition delay (t : Timeout) : Z :=
  match t with
  | FlashOff => 200
  | ClearAutoSaveMessage => 3000
  end.

(** What running the handler up to its next suspension leaves behind: the
    updated state, the call it is now awaiting (if it has not finished) and
    the timeouts it registered. *)
Record Outcome := {
  state : AppState;
  awaiting : option (ServiceCall * Suspended);
  timeouts : list Timeout
}.

Definition finished (s : AppState) : Outcome :=
  {| state := s; awaiting := None; timeouts := [] |}.

Definition suspended (s : AppState) (c : ServiceCall) (k : Suspended)
  : Outcome :=
  {| state := s; awaiting := Some (c, k); timeouts := [] |}.

Definition analyzeError : string :=
  "AI was unable to generate a suggestion. Please try again.".

Definition gradeError : string := "Could not grade pose. Try again.".

Definition savedMessage : string := "Photo saved to Gallery!".

(** [poseFeedback?.score || 0] *)
Definition scoreOrZero (f : option PoseFeedback) : Z :=
  match f with
  | None => 0%Z
  | Some fb => if Z.eqb (score fb) 0 then 0%Z else score fb
  end.

(** The object literal of the save branch; [now_id] and [now_ts] are the
    two readings of [Date.now()]. *)
Definition newImage (s : AppState) (now_id now_ts : Z) (base64Image : string)
  : GalleryImage :=
  {| id := JS.toString now_id;
     imageData := base64Image;
     referenceImage := generatedPoseImage s;
     image_score := scoreOrZero (poseFeedback s);
     timestamp := now_ts |}.

(** The updater passed to [setGallery]: [[newImage, ...prev].slice(0, 20)]. *)
Definition prepend (img : GalleryImage) (prev : list GalleryImage)
  : list GalleryImage :=
  firstn 20 (img :: prev).

(** The synchronous part of [handleCaptureFrame(base64Image)], from its
    first statement to its first [await] (or to its end).  [s] is the state
    of the render that created the callback. *)
Definition handleCaptureFrame (s : AppState) (now_id now_ts : Z)
           (base64Image : string) : Outcome :=
  let s0 := setAutoSaveMessage None (setError None s) in
  match captureIntent s with
  | analyze =>
      let s1 := setPoseLandmarks None
                  (setPoseFeedback None (setIsAnalyzing true s0)) in
      suspended s1
        (analyzeSceneAndSuggest base64Image (selectedGender s)
                                (selectedStyle s))
        (AwaitAnalysis (selectedGender s) (selectedStyle s))
  | grade =>
      match analysisResult s with
      | None =>
          (* [return] inside [try]: the [finally] block still runs *)
          finished (setIsGrading false s0)
      | Some a =>
          suspended (setIsGrading true s0)
            (evaluatePoseMatch base64Image (description (suggestedPose a)))
            AwaitFeedback
      end
  | save =>
      let img := newImage s now_id now_ts base64Image in
      {| state := setAutoSaveMessage (Some savedMessage)
                    (setGallery (prepend img) (setFlash true s0));
         awaiting := None;
         timeouts := [FlashOff; ClearAutoSaveMessage] |}
  end.

(** [catch] and [finally] of the analyze branch. *)
Definition analyzeFailed (s : AppState) : AppState :=
  setIsAnalyzing false (setError (Some analyzeError) s).

(** [catch] and [finally] of the grade branch. *)
Definition gradeFailed (s : AppState) : AppState :=
  setIsGrading false (setError (Some gradeError) s).

(** What the awaited promise settles to, by suspension point. *)
Definition Settled (k : Suspended) : Type :=
  match k with
  | AwaitAnalysis _ _ => completion AnalysisResult
  | AwaitReference => completion string
  | AwaitLandmarks => completion (option PoseLandmarks)
  | AwaitFeedback => completion PoseFeedback
  end.

(** The handler from the [await] it was suspended at, once the promise has
    settled to [r], up to the next [await].  [s] is the state current at
    that moment: the setters overwrite it field by field. *)
Definition resume (k : Suspended) : Settled k -> AppState -> Outcome :=
  match k with
  | AwaitAnalysis gender style => fun r s =>
      match r with
      | Normal result =>
          suspended (setAnalysisResult (Some result) s)
            (generatePoseReference (description (suggestedPose result))
                                   gender style)
            AwaitReference
      | Throw _ => finished (analyzeFailed s)
      end
  | AwaitReference => fun r s =>
      match r with
      | Normal poseImageBase64 =>
          suspended (setGeneratedPoseImage (Some poseImageBase64) s)
            (extractPoseLandmarks poseImageBase64)
            AwaitLandmarks
      | Throw _ => finished (analyzeFailed s)
      end
  | AwaitLandmarks => fun r s =>
      match r with
      | Normal landmarks =>
          finished (setIsAnalyzing false (setPoseLandmarks landmarks s))
      | Throw _ => finished (analyzeFailed s)
      end
  | AwaitFeedback => fun r s =>
      match r with
      | Normal feedback =>
          finished (setIsGrading false (setPoseFeedback (Some feedback) s))
      | Throw _ => finished (gradeFailed s)
      end
  end.

(** The timeout callbacks. *)
Definition fire (t : Timeout) (s : AppState) : AppState :=
  match t with
  | FlashOff => setFlash false s
  | ClearAutoSaveMessage => setAutoSaveMessage None s
  end.

(** [reset] *)
Definition reset (s : AppState) : AppState :=
  setAutoSaveMessage None
    (setError None
       (setPoseFeedback None
          (setPoseLandmarks None
             (setGeneratedPoseImage None (setAnalysisResult None s))))).

(** [deleteFromGallery]: [prev.filter(img => img.id !== id)] *)
Definition remove (target : string) (prev : list GalleryImage)
  : list GalleryImage :=
  filter (fun img => negb (String.eqb (id img) target)) prev.

Definition deleteFromGallery (target : string) (s : AppState) : AppState :=
  setGallery (remove target) s.

(** *** One dispatch run to completion

    The replies the service gives to the calls of one invocation. *)
Record Replies := {
  analysisReply : completion AnalysisResult;
  referenceReply : completion string;
  landmarksReply : completion (option PoseLandmarks);
  feedbackReply : completion PoseFeedback
}.

Definition reply (rs : Replies) (k : Suspended) : Settled k :=
  match k with
  | AwaitAnalysis _ _ => analysisReply rs
  | AwaitReference => referenceReply rs
  | AwaitLandmarks => landmarksReply rs
  | AwaitFeedback => feedbackReply rs
  end.

(** Settle the awaited calls one after the other, nothing else happening
    in between; the calls made are recorded in order.  An invocation
    awaits at most three calls. *)
Fixpoint settle (n : nat) (rs : Replies) (o : Outcome)
  : Outcome * list ServiceCall :=
  match awaiting o, n with
  | None, _ => (o, [])
  | Some (c, _), O => (o, [c])
  | Some (c, k), S n' =>
      let (o', calls) := settle n' rs (resume k (reply rs k) (state o)) in
      (o', c :: calls)
  end.

Definition run (i : Intent) (rs : Replies) (s : AppState)
           (now_id now_ts : Z) (base64Image : string)
  : Outcome * list ServiceCall :=
  settle 3 rs (handleCaptureFrame (setCaptureIntent i s) now_id now_ts
                                  base64Image).

(** A capture dispatched with intent [i] on state [s], and the whole
    invocation run to its end against the replies [rs]: the final state
    and the service calls made. *)
Definition dispatch (i : Intent) (rs : Replies) (s : AppState)
           (now_id now_ts : Z) (base64Image : string)
  : AppState * list ServiceCall :=
  (state (fst (run i rs s now_id now_ts base64Image)),
   snd (run i rs s now_id now_ts base64Image)).

(** ** services/geminiService.ts: [extractPoseLandmarks] *)

Module geminiService.

(** The response of [ai.models.generateContent]; [text] may be
    undefined. *)
Record GenerateContentResponse := { text : option string }.

Section ExtractPoseLandmarks.

(** [JSON.parse(response.text) as PoseLandmarks]: throws on text that is
    not JSON; [None] is the JSON [null]. *)
Variable JSON_parse : string -> completion (option PoseLandmarks).

(** The body of [extractPoseLandmarks], given what the awaited
    [generateContent] call settled to. *)
Definition extractPoseLandmarks
           (response : completion GenerateContentResponse)
  : completion (option PoseLandmarks) :=
  try_catch
    (r <- response ;;
     match text r with
     | Some t => if truthy (Some t) then JSON_parse t else Normal None
     | None => Normal None
     end)
    (fun _ => Normal None).

(** The call brought back no landmarks: it was rejected, the response
    had no text, or the text did not parse to landmarks. *)
Definition noLandmarks (response : completion GenerateContentResponse)
  : bool :=
  match response with
  | Throw _ => true
  | Normal r =>
      match text r with
      | None => true
      | Some t =>
          if truthy (Some t)
          then match JSON_parse t with
               | Normal (Some _) => false
               | _ => true
               end
          else true
      end
  end.

End ExtractPoseLandmarks.

(** *** The other three calls

    Each has the shape [try { ... } catch (error) { console.error(...);
    throw error }]: what the body throws is thrown again. *)

Definition noAnalysis : exn := Error "No analysis generated".
Definition noImageGenerated : exn := Error "No image generated".
Definition noFeedback : exn := Error "No feedback generated".

Section AnalyzeSceneAndSuggest.

(** [JSON.parse(response.text) as AnalysisResult] *)
Variable JSON_parse : string -> completion AnalysisResult.

Definition analyzeSceneAndSuggest
           (response : completion GenerateContentResponse)
  : completion AnalysisResult :=
  try_catch
    (r <- response ;;
     match text r with
     | Some t => if truthy (Some t) then JSON_parse t else Throw noAnalysis
     | None => Throw noAnalysis
     end)
    (fun error => Throw error).

End AnalyzeSceneAndSuggest.

Section EvaluatePoseMatch.

(** [JSON.parse(response.text) as PoseFeedback] *)
Variable JSON_parse : string -> completion PoseFeedback.

Definition evaluatePoseMatch
           (response : completion GenerateContentResponse)
  : completion PoseFeedback :=
  try_catch
    (r <- response ;;
     match text r with
     | Some t => if truthy (Some t) then JSON_parse t else Throw noFeedback
     | None => Throw noFeedback
     end)
    (fun error => Throw error).

End EvaluatePoseMatch.

(** The part of the response that [generatePoseReference] reads; every
    level may be undefined. *)
Record InlineData := { data : option string }.
Record Part := { inlineData : option InlineData }.
Record Content := { parts : option (list Part) }.
Record Candidate := { content : option Content }.
Record ImageResponse := { candidates : option (list Candidate) }.

Definition hasInlineData (p : Part) : bool :=
  match inlineData p with
  | Some _ => true
  | None => false
  end.

(** [response.candidates?.[0]?.content?.parts?.find(part =>
    part.inlineData)] *)
Definition imagePart (r : ImageResponse) : option Part :=
  match candidates r with
  | Some (c :: _) =>
      match content c with
      | Some ct =>
          match parts ct with
          | Some ps => find hasInlineData ps
          | None => None
          end
      | None => None
      end
  | _ => None
  end.

(** [imagePart?.inlineData?.data] *)
Definition inlineImage (p : option Part) : option string :=
  match p with
  | Some part =>
      match inlineData part with
      | Some d => data d
      | None => None
      end
  | None => None
  end.

Definition generatePoseReference (response : completion ImageResponse)
  : completion string :=
  try_catch
    (r <- response ;;
     match inlineImage (imagePart r) with
     | Some d => if truthy (Some d) then Normal d else Throw noImageGenerated
     | None => Throw noImageGenerated
     end)
    (fun error => Throw error).

End geminiService.

(** ** App.tsx: the rendered controls *)

Inductive Control :=
| SuggestPoseButton
| CapturePhotoButton
| RecheckButton
| CheckAlignmentButton
| NewPoseButton
| RegenerateButton
| GenderButton (g : Gender)
| StyleOption (st : PoseStyle)
| DeleteButton (target : string).

(** [poseFeedback && poseFeedback.score > 50] *)
Definition scoreAbove50 (s : AppState) : bool :=
  match poseFeedback s with
  | Some fb => Z.ltb 50 (score fb)
  | None => false
  end.

Definition hasAnalysis (s : AppState) : bool :=
  match analysisResult s with
  | Some _ => true
  | None => false
  end.

(** Whether the JSX renders the control in state [s]. *)
Definition rendered (s : AppState) (c : Control) : bool :=
  match c with
  | SuggestPoseButton => negb (hasAnalysis s)
  | GenderButton _ => negb (hasAnalysis s)
  | StyleOption _ => negb (hasAnalysis s)
  | CapturePhotoButton => hasAnalysis s && scoreAbove50 s
  | RecheckButton => hasAnalysis s && scoreAbove50 s
  | CheckAlignmentButton => hasAnalysis s && negb (scoreAbove50 s)
  | NewPoseButton => hasAnalysis s
  | RegenerateButton => hasAnalysis s
  | DeleteButton target =>
      existsb (fun img => String.eqb (id img) target) (gallery s)
  end.

(** The [disabled] attribute. *)
Definition disabled (s : AppState) (c : Control) : bool :=
  match c with
  | SuggestPoseButton => isAnalyzing s
  | RegenerateButton => isAnalyzing s
  | RecheckButton => isGrading s
  | CheckAlignmentButton => isGrading s
  | _ => false
  end.

Definition clickable (s : AppState) (c : Control) : bool :=
  rendered s c && negb (disabled s c).

(** What [onClick] / [onChange] / [onDelete] runs. *)
Inductive Action :=
| Trigger (i : Intent)
| Reset
| SelectGender (g : Gender)
| SelectStyle (st : PoseStyle)
| Delete (target : string).

Definition onClick (c : Control) : Action :=
  match c with
  | SuggestPoseButton => Trigger analyze
  | RegenerateButton => Trigger analyze
  | CapturePhotoButton => Trigger save
  | RecheckButton => Trigger grade
  | CheckAlignmentButton => Trigger grade
  | NewPoseButton => Reset
  | GenderButton g => SelectGender g
  | StyleOption st => SelectStyle st
  | DeleteButton target => Delete target
  end.

(** ** The running application

    The component state together with the handler invocations suspended at
    an [await] and the timeouts not yet fired. *)
Record System := {
  app : AppState;
  inflight : list (ServiceCall * Suspended);
  timers : list Timeout
}.

Definition initialSystem (g : list GalleryImage) : System :=
  {| app := initialState g; inflight := []; timers := [] |}.

Definition toList {A : Type} (o : option A) : list A :=
  match o with
  | Some a => [a]
  | None => []
  end.

(** Fold the outcome of a handler run into the system. *)
Definition absorb (o : Outcome) (rest : list (ServiceCall * Suspended))
           (sys : System) : System :=
  {| app := state o;
     inflight := toList (awaiting o) ++ rest;
     timers := timers sys ++ timeouts o |}.

(** What the camera and the clock supply to a click: the frame handed to
    [onCaptureFrame] ([None] when [capture] cannot draw) and the two
    readings of [Date.now()]. *)
Record Capture := {
  frame : option string;
  now_id : Z;
  now_ts : Z
}.

(** [triggerAnalysis], [triggerGrading], [triggerSave]: set the intent,
    then [cameraRef.current.capture()], which calls the handler
    synchronously. *)
Definition trigger (i : Intent) (cap : Capture) (sys : System) : System :=
  let s := setCaptureIntent i (app sys) in
  match frame cap with
  | Some base64Image =>
      absorb (handleCaptureFrame s (now_id cap) (now_ts cap) base64Image)
             (inflight sys) sys
  | None => absorb (finished s) (inflight sys) sys
  end.

Definition perform (a : Action) (cap : Capture) (sys : System) : System :=
  match a with
  | Trigger i => trigger i cap sys
  | Reset => absorb (finished (reset (app sys))) (inflight sys) sys
  | SelectGender g =>
      absorb (finished (setSelectedGender g (app sys))) (inflight sys) sys
  | SelectStyle st =>
      absorb (finished (setSelectedStyle st (app sys))) (inflight sys) sys
  | Delete target =>
      absorb (finished (deleteFromGallery target (app sys))) (inflight sys)
             sys
  end.

(** One event of the event loop: a click on a control that is rendered and
    not disabled, the settling of an awaited call, or a timeout firing. *)
Inductive step : System -> System -> Prop :=
| step_click (sys : System) (c : Control) (cap : Capture) :
    clickable (app sys) c = true ->
    step sys (perform (onClick c) cap sys)
| step_settle (sys : System) (before after : list (ServiceCall * Suspended))
              (c : ServiceCall) (k : Suspended) (r : Settled k) :
    inflight sys = before ++ (c, k) :: after ->
    step sys (absorb (resume k r (app sys)) (before ++ after) sys)
| step_timeout (sys : System) (before after : list Timeout) (t : Timeout) :
    timers sys = before ++ t :: after ->
    step sys {| app := fire t (app sys);
                inflight := inflight sys;
                timers := before ++ after |}.

(** The systems reachable from a freshly mounted component whose gallery
    initialiser produced [g]. *)
Inductive reachable (g : list GalleryImage) : System -> Prop :=
| reachable_init : reachable g (initialSystem g)
| reachable_step (sys sys' : System) :
    reachable g sys -> step sys sys' -> reachable g sys'.

(** Invocations of the handler still inside the analyze branch, and still
    inside the grade branch. *)
Definition inAnalyze (p : ServiceCall * Suspended) : bool :=
  match snd p with
  | AwaitFeedback => false
  | _ => true
  end.

Definition inGrade (p : ServiceCall * Suspended) : bool :=
  negb (inAnalyze p).

Definition analyzing (sys : System) : nat :=
  List.length (filter inAnalyze (inflight sys)).

Definition grading (sys : System) : nat :=
  List.length (filter inGrade (inflight sys)).

(** ** JSON

    A model of [JSON.stringify] and [JSON.parse] on the values the gallery
    is made of.  Numbers are integers (the gallery stores [Date.now()]
    readings and scores): the parser reports a numeral with a fraction or
    an exponent as a syntax error.  Strings are sequences of 8-bit
    characters: a [\uXXXX] escape above 00FF is reported as a syntax error.
    Object members are kept in the order of the text, a repeated key
    keeping its first place and its last value; keys that look like array
    indices are not moved to the front. *)

Module JSON.

Inductive value :=
| Null
| Bool (b : bool)
| Number (n : Z)
| Str (s : string)
| Array (elements : list value)
| Object (members : list (string * value)).

Definition dquote : ascii := "034"%char.

(** *** stringify *)

Definition hexDigit (n : nat) : ascii :=
  match String.get n "0123456789abcdef" with
  | Some c => c
  | None => "0"%char
  end.

Definition quoteChar (c : ascii) : string :=
  if Ascii.eqb c dquote then String "\" (String dquote EmptyString)
  else if Ascii.eqb c "\" then "\\"
  else if Ascii.eqb c "008" then "\b"
  else if Ascii.eqb c "012" then "\f"
  else if Ascii.eqb c "010" then "\n"
  else if Ascii.eqb c "013" then "\r"
  else if Ascii.eqb c "009" then "\t"
  else if Nat.ltb (nat_of_ascii c) 32
       then String "\" (String "u" (String "0" (String "0"
              (String (hexDigit (nat_of_ascii c / 16))
                 (String (hexDigit (nat_of_ascii c mod 16)) EmptyString)))))
       else String c EmptyString.

Fixpoint quoteBody (s : string) : string :=
  match s with
  | EmptyString => EmptyString
  | String c s' => (quoteChar c ++ quoteBody s')%string
  end.

Definition quote (s : string) : string :=
  String dquote (quoteBody s ++ String dquote EmptyString)%string.

Section CommaSeparated.

Variable A : Type.
Variable write : A -> string.

Fixpoint commaSeparated (l : list A) : string :=
  match l with
  | [] => EmptyString
  | a :: l' =>
      match l' with
      | [] => write a
      | _ :: _ => (write a ++ String "," (commaSeparated l'))%string
      end
  end.

End CommaSeparated.

Fixpoint stringify (v : value) : string :=
  match v with
  | Null => "null"
  | Bool true => "true"
  | Bool false => "false"
  | Number n => JS.toString n
  | Str s => quote s
  | Array elements =>
      String "[" (commaSeparated stringify elements ++ "]")%string
  | Object members =>
      String "{"
        (commaSeparated
           (fun m => (quote (fst m) ++ String ":" (stringify (snd m)))%string)
           members ++ "}")%string
  end.

(** *** parse *)

Definition isWhitespace (c : ascii) : bool :=
  Ascii.eqb c " " || Ascii.eqb c "009" || Ascii.eqb c "010"
  || Ascii.eqb c "013".

Fixpoint skipWhitespace (s : string) : string :=
  match s with
  | String c s' => if isWhitespace c then skipWhitespace s' else s
  | EmptyString => EmptyString
  end.

Definition digit (c : ascii) : option (Decimal.uint -> Decimal.uint) :=
  if Ascii.eqb c "0" then Some Decimal.D0
  else if Ascii.eqb c "1" then Some Decimal.D1
  else if Ascii.eqb c "2" then Some Decimal.D2
  else if Ascii.eqb c "3" then Some Decimal.D3
  else if Ascii.eqb c "4" then Some Decimal.D4
  else if Ascii.eqb c "5" then Some Decimal.D5
  else if Ascii.eqb c "6" then Some Decimal.D6
  else if Ascii.eqb c "7" then Some Decimal.D7
  else if Ascii.eqb c "8" then Some Decimal.D8
  else if Ascii.eqb c "9" then Some Decimal.D9
  else None.

(** The longest run of digits at the head of [s]. *)
Fixpoint digits (s : string) : Decimal.uint * string :=
  match s with
  | String c s' =>
      match digit c with
      | Some d => let (ds, rest) := digits s' in (d ds, rest)
      | None => (Decimal.Nil, s)
      end
  | EmptyString => (Decimal.Nil, EmptyString)
  end.

(** [0], or a digit sequence that does not start with [0]. *)
Definition integerPart (d : Decimal.uint) : bool :=
  match d with
  | Decimal.Nil => false
  | Decimal.D0 Decimal.Nil => true
  | Decimal.D0 _ => false
  | _ => true
  end.

(** A fraction or an exponent follows. *)
Definition fractionAhead (s : string) : bool :=
  match s with
  | String c _ => Ascii.eqb c "." || Ascii.eqb c "e" || Ascii.eqb c "E"
  | EmptyString => false
  end.

Definition unsignedNumber (s : string) : option (Decimal.uint * string) :=
  let (d, rest) := digits s in
  if integerPart d && negb (fractionAhead rest) then Some (d, rest)
  else None.

Definition number (s : string) : option (Z * string) :=
  match s with
  | String c s' =>
      if Ascii.eqb c "-"
      then match unsignedNumber s' with
           | Some (d, rest) => Some (Z.of_int (Decimal.Neg d), rest)
           | None => None
           end
      else match unsignedNumber s with
           | Some (d, rest) => Some (Z.of_int (Decimal.Pos d), rest)
           | None => None
           end
  | EmptyString => None
  end.

Definition hexValue (c : ascii) : option nat :=
  let n := nat_of_ascii c in
  if Nat.leb 48 n && Nat.leb n 57 then Some (n - 48)
  else if Nat.leb 97 n && Nat.leb n 102 then Some (n - 87)
  else if Nat.leb 65 n && Nat.leb n 70 then Some (n - 55)
  else None.

Definition unicodeEscape (h1 h2 h3 h4 : ascii) : option ascii :=
  match hexValue h1, hexValue h2, hexValue h3, hexValue h4 with
  | Some a, Some b, Some c, Some d =>
      if Nat.eqb a 0 && Nat.eqb b 0 then Some (ascii_of_nat (16 * c + d))
      else None
  | _, _, _, _ => None
  end.

Definition simpleEscape (c : ascii) : option ascii :=
  if Ascii.eqb c dquote then Some dquote
  else if Ascii.eqb c "\" then Some "\"%char
  else if Ascii.eqb c "/" then Some "/"%char
  else if Ascii.eqb c "b" then Some "008"%char
  else if Ascii.eqb c "f" then Some "012"%char
  else if Ascii.eqb c "n" then Some "010"%char
  else if Ascii.eqb c "r" then Some "013"%char
  else if Ascii.eqb c "t" then Some "009"%char
  else None.

Definition push (c : ascii) (r : option (string * string))
  : option (string * string) :=
  match r with
  | Some (s, rest) => Some (String c s, rest)
  | None => None
  end.

(** The characters of a string literal after its opening quote, up to and
    including the closing quote. *)
Fixpoint stringBody (s : string) : option (string * string) :=
  match s with
  | EmptyString => None
  | String c s1 =>
      if Ascii.eqb c dquote then Some (EmptyString, s1)
      else if Ascii.eqb c "\" then
        match s1 with
        | EmptyString => None
        | String e s2 =>
            if Ascii.eqb e "u" then
              match s2 with
              | String h1 (String h2 (String h3 (String h4 s6))) =>
                  match unicodeEscape h1 h2 h3 h4 with
                  | Some ch => push ch (stringBody s6)
                  | None => None
                  end
              | _ => None
              end
            else
              match simpleEscape e with
              | Some ch => push ch (stringBody s2)
              | None => None
              end
        end
      else if Nat.ltb (nat_of_ascii c) 32 then None
      else push c (stringBody s1)
  end.

(** [s] without the prefix [lit]. *)
Fixpoint literal (lit s : string) : option string :=
  match lit, s with
  | EmptyString, _ => Some s
  | String a lit', String b s' =>
      if Ascii.eqb a b then literal lit' s' else None
  | String _ _, EmptyString => None
  end.

Fixpoint lookup (key : string) (members : list (string * value))
  : option value :=
  match members with
  | [] => None
  | (k, v) :: rest => if String.eqb k key then Some v else lookup key rest
  end.

(** A member put in front of the members that follow it in the text: a
    later member with the same key overwrites the value, and the key keeps
    its first position. *)
Definition define (key : string) (v : value)
           (later : list (string * value)) : list (string * value) :=
  match lookup key later with
  | Some v' =>
      (key, v') :: filter (fun m => negb (String.eqb (fst m) key)) later
  | None => (key, v) :: later
  end.

Fixpoint parseValue (fuel : nat) (s : string) {struct fuel}
  : option (value * string) :=
  match fuel with
  | O => None
  | S fuel' =>
      match skipWhitespace s with
      | EmptyString => None
      | String c rest =>
          if Ascii.eqb c "n" then
            match literal "ull" rest with
            | Some r => Some (Null, r)
            | None => None
            end
          else if Ascii.eqb c "t" then
            match literal "rue" rest with
            | Some r => Some (Bool true, r)
            | None => None
            end
          else if Ascii.eqb c "f" then
            match literal "alse" rest with
            | Some r => Some (Bool false, r)
            | None => None
            end
          else if Ascii.eqb c dquote then
            match stringBody rest with
            | Some (str, r) => Some (Str str, r)
            | None => None
            end
          else if Ascii.eqb c "[" then
            match skipWhitespace rest with
            | EmptyString => None
            | String c' r =>
                if Ascii.eqb c' "]" then Some (Array [], r)
                else match parseElements fuel' rest with
                     | Some (vs, r') => Some (Array vs, r')
                     | None => None
                     end
            end
          else if Ascii.eqb c "{" then
            match skipWhitespace rest with
            | EmptyString => None
            | String c' r =>
                if Ascii.eqb c' "}" then Some (Object [], r)
                else match parseMembers fuel' rest with
                     | Some (ms, r') => Some (Object ms, r')
                     | None => None
                     end
            end
          else
            match number (String c rest) with
            | Some (n, r) => Some (Number n, r)
            | None => None
            end
      end
  end

with parseElements (fuel : nat) (s : string) {struct fuel}
  : option (list value * string) :=
  match fuel with
  | O => None
  | S fuel' =>
      match parseValue fuel' s with
      | None => None
      | Some (v, r) =>
          match skipWhitespace r with
          | EmptyString => None
          | String c r' =>
              if Ascii.eqb c "," then
                match parseElements fuel' r' with
                | Some (vs, r'') => Some (v :: vs, r'')
                | None => None
                end
              else if Ascii.eqb c "]" then Some ([v], r')
              else None
          end
      end
  end

with parseMembers (fuel : nat) (s : string) {struct fuel}
  : option (list (string * value) * string) :=
  match fuel with
  | O => None
  | S fuel' =>
      match skipWhitespace s with
      | EmptyString => None
      | String q r0 =>
          if Ascii.eqb q dquote then
            match stringBody r0 with
            | None => None
            | Some (key, r1) =>
                match skipWhitespace r1 with
                | EmptyString => None
                | String colon r2 =>
                    if Ascii.eqb colon ":" then
                      match parseValue fuel' r2 with
                      | None => None
                      | Some (v, r3) =>
                          match skipWhitespace r3 with
                          | EmptyString => None
                          | String c r4 =>
                              if Ascii.eqb c "," then
                                match parseMembers fuel' r4 with
                                | Some (ms, r5) => Some (define key v ms, r5)
                                | None => None
                                end
                              else if Ascii.eqb c "}"
                                   then Some ([(key, v)], r4)
                                   else None
                          end
                      end
                    else None
                end
            end
          else None
      end
  end.

Definition syntaxError : exn := Error "SyntaxError".

(** [JSON.parse(text)]: one value, with nothing but whitespace after it.
    The fuel bounds the depth of the recursion (nesting and number of
    siblings); each nesting and each sibling costs at least one character
    of text, and the length of the text is what [parse] gives. *)
Definition parse (text : string) : completion value :=
  match parseValue (S (String.length text)) text with
  | Some (v, rest) =>
      match skipWhitespace rest with
      | EmptyString => Normal v
      | String _ _ => Throw syntaxError
      end
  | None => Throw syntaxError
  end.

End JSON.

(** ** localStorage *)

Module localStorage.

(** The items of the origin, whether the browser lets the page use the
    storage at all, and whether it accepts a given write (the quota). *)
Record Storage := {
  items : string -> option string;
  blocked : bool;
  accepts : string -> string -> bool
}.

Definition securityError : exn := Error "SecurityError".
Definition quotaExceededError : exn := Error "QuotaExceededError".

Definition getItem (st : Storage) (key : string)
  : completion (option string) :=
  if blocked st then Throw securityError else Normal (items st key).

Definition setItem (st : Storage) (key val : string) : completion Storage :=
  if blocked st then Throw securityError
  else if accepts st key val
       then Normal {| items := fun k => if String.eqb k key then Some val
                                        else items st k;
                      blocked := blocked st;
                      accepts := accepts st |}
       else Throw quotaExceededError.

End localStorage.

(** ** App.tsx: loading and persisting the gallery *)

Definition galleryKey : string := "instapose_gallery".

(** The JavaScript value of a gallery held in the component state. *)
Definition nullable (o : option string) : JSON.value :=
  match o with
  | Some s => JSON.Str s
  | None => JSON.Null
  end.

Definition imageValue (img : GalleryImage) : JSON.value :=
  JSON.Object [("id", JSON.Str (id img));
               ("imageData", JSON.Str (imageData img));
               ("referenceImage", nullable (referenceImage img));
               ("score", JSON.Number (image_score img));
               ("timestamp", JSON.Number (timestamp img))].

Definition galleryValue (g : list GalleryImage) : JSON.value :=
  JSON.Array (map imageValue g).

Definition isArray (v : JSON.value) : bool :=
  match v with
  | JSON.Array _ => true
  | _ => false
  end.

Section GalleryStore.

Variable JSON_parse : string -> completion JSON.value.
Variable JSON_stringify : JSON.value -> string.

(** The initialiser of the [gallery] state: what it returns is the initial
    state, whatever value that is. *)
Definition loadGallery (st : localStorage.Storage) : completion JSON.value :=
  try_catch
    (saved <- localStorage.getItem st galleryKey ;;
     match saved with
     | Some blob =>
         if truthy (Some blob) then JSON_parse blob
         else Normal (JSON.Array [])
     | None => Normal (JSON.Array [])
     end)
    (fun _ => Normal (JSON.Array [])).

(** The effect that runs after every change of [gallery]; a failed write is
    logged and the storage stays as it was. *)
Definition persistGallery (g : list GalleryImage)
           (st : localStorage.Storage) : localStorage.Storage :=
  match localStorage.setItem st galleryKey
          (JSON_stringify (galleryValue g)) with
  | Normal st' => st'
  | Throw _ => st
  end.

End GalleryStore.

(** ** components/CameraView.tsx: the frame handed to [onCaptureFrame] *)

Module CameraView.

(** [s.split(sep)] for a one-character separator. *)
Fixpoint split (sep : ascii) (s : string) : list string :=
  match s with
  | EmptyString => [EmptyString]
  | String c s' =>
      if Ascii.eqb c sep then EmptyString :: split sep s'
      else match split sep s' with
           | piece :: rest => String c piece :: rest
           | [] => [String c EmptyString]
           end
  end.

(** [dataUrl.split(',')[1]]; [None] is [undefined]. *)
Definition frameOf (dataUrl : string) : option string :=
  nth_error (split "," dataUrl) 1.

Fixpoint hasComma (s : string) : bool :=
  match s with
  | EmptyString => false
  | String c s' => Ascii.eqb c "," || hasComma s'
  end.

End CameraView.

(** ** components/AnalysisPanel.tsx *)

Module AnalysisPanel.

Inductive Color := Green | Blue | Yellow | Red.

(** The colour of the score in the feedback card. *)
Definition scoreColor (fb : PoseFeedback) : Color :=
  if Z.leb 80 (score fb) then Green
  else if Z.leb 50 (score fb) then Yellow
  else Red.

Definition lightingColor (q : LightingQuality) : Color :=
  match q with
  | Excellent => Green
  | GoodLight => Blue
  | _ => Yellow
  end.

Definition difficultyColor (d : Difficulty) : Color :=
  match d with
  | Easy => Green
  | Medium => Yellow
  | Hard => Red
  end.

(** What the component returns: the loading skeleton, nothing, or the
    cards (the feedback card only when there is feedback). *)
Inductive View :=
| Skeleton
| Nothing
| Cards (feedbackCard : option PoseFeedback) (analysis : AnalysisResult).

Definition render (analysis : option AnalysisResult)
           (feedback : option PoseFeedback) (isLoading : bool) : View :=
  if isLoading then Skeleton
  else match analysis with
       | None => Nothing
       | Some a => Cards feedback a
       end.

End AnalysisPanel.

(** [<AnalysisPanel analysis={analysisResult} feedback={poseFeedback}
    isLoading={isAnalyzing} />] *)
Definition analysisPanel (s : AppState) : AnalysisPanel.View :=
  AnalysisPanel.render (analysisResult s) (poseFeedback s) (isAnalyzing s).

(** [<CameraView ... isAnalyzing={isAnalyzing || isGrading} />]: the
    scanning animation. *)
Definition scanning (s : AppState) : bool := isAnalyzing s || isGrading s.

(** ** components/GalleryPanel.tsx *)

Module GalleryPanel.

(** [showReference && img.referenceImage ? img.referenceImage :
    img.imageData]: the picture shown and the picture downloaded. *)
Definition picture (img : GalleryImage) (showReference : bool) : string :=
  match referenceImage img with
  | Some r =>
      if showReference && truthy (Some r) then r else imageData img
  | None => imageData img
  end.

(** [link.href] of [handleDownload]. *)
Definition href (img : GalleryImage) (showReference : bool) : string :=
  ("data:image/jpeg;base64," ++ picture img showReference)%string.

Definition kind (showReference : bool) : string :=
  if showReference then "ref" else "capture".

(** [link.download] of [handleDownload]. *)
Definition download (img : GalleryImage) (showReference : bool) : string :=
  ("instapose_" ++ JS.toString (timestamp img) ++ "_"
   ++ kind showReference ++ ".jpg")%string.

(** [{img.referenceImage && (...)}]: the thumbnail, the only element with
    mouse handlers. *)
Definition thumbnail (img : GalleryImage) : bool :=
  truthy (referenceImage img).

(** The [showReference] state of one item: [false] at first, set by
    [onMouseEnter] and cleared by [onMouseLeave] of the thumbnail. *)
Inductive shows (img : GalleryImage) : bool -> Prop :=
| shows_initial : shows img false
| shows_enter (b : bool) :
    shows img b -> thumbnail img = true -> shows img true
| shows_leave (b : bool) :
    shows img b -> thumbnail img = true -> shows img false.

(** The score badge. *)
Definition badge (img : GalleryImage) : AnalysisPanel.Color :=
  if Z.leb 80 (image_score img) then AnalysisPanel.Green
  else AnalysisPanel.Yellow.

(** [if (images.length === 0) return null]: the ids of the items
    rendered, [None] when the panel renders nothing. *)
Definition items (images : list GalleryImage) : option (list string) :=
  match images with
  | [] => None
  | _ :: _ => Some (map id images)
  end.

End GalleryPanel.

(** ** The page with its storage

    The persist effect has [gallery] as its dependency: it runs after the
    first render and after every render that follows a [setGallery]. *)
Record Browser := {
  page : System;
  disk : localStorage.Storage
}.

Definition persist (sys : System) (st : localStorage.Storage)
  : localStorage.Storage :=
  persistGallery JSON.stringify (gallery (app sys)) st.

(** Whether the action calls [setGallery]. *)
Definition setsGallery (a : Action) (cap : Capture) : bool :=
  match a with
  | Trigger save =>
      match frame cap with
      | Some _ => true
      | None => false
      end
  | Delete _ => true
  | _ => false
  end.

Inductive browserStep : Browser -> Browser -> Prop :=
| browser_click (b : Browser) (c : Control) (cap : Capture) :
    clickable (app (page b)) c = true ->
    browserStep b
      {| page := perform (onClick c) cap (page b);
         disk := if setsGallery (onClick c) cap
                 then persist (perform (onClick c) cap (page b)) (disk b)
                 else disk b |}
| browser_settle (b : Browser)
                 (before after : list (ServiceCall * Suspended))
                 (c : ServiceCall) (k : Suspended) (r : Settled k) :
    inflight (page b) = before ++ (c, k) :: after ->
    browserStep b
      {| page := absorb (resume k r (app (page b))) (before ++ after)
                        (page b);
         disk := disk b |}
| browser_timeout (b : Browser) (before after : list Timeout)
                  (t : Timeout) :
    timers (page b) = before ++ t :: after ->
    browserStep b
      {| page := {| app := fire t (app (page b));
                    inflight := inflight (page b);
                    timers := before ++ after |};
         disk := disk b |}.

(** The component mounted over the storage [st] with the gallery [g] its
    initialiser produced, and what follows. *)
Inductive browserReachable (st : localStorage.Storage)
          (g : list GalleryImage) : Browser -> Prop :=
| browser_mounted :
    browserReachable st g
      {| page := initialSystem g; disk := persist (initialSystem g) st |}
| browser_next (b b' : Browser) :
    browserReachable st g b -> browserStep b b' ->
    browserReachable st g b'.

(** ** Settling what is outstanding *)

(** Number of [await]s still ahead of a suspension point, itself
    included. *)
Definition awaitsLeft (k : Suspended) : nat :=
  match k with
  | AwaitAnalysis _ _ => 3
  | AwaitReference => 2
  | AwaitLandmarks => 1
  | AwaitFeedback => 1
  end.

Definition awaitsAhead (sys : System) : nat :=
  list_sum (map (fun p => awaitsLeft (snd p)) (inflight sys)).

(** The call at the head of the outstanding ones settles to the reply
    [rs] has for it. *)
Definition settleFirst (rs : Replies) (sys : System) : System :=
  match inflight sys with
  | [] => sys
  | (c, k) :: rest => absorb (resume k (reply rs k) (app sys)) rest sys
  end.

Definition settleAll (rss : list Replies) (sys : System) : System :=
  fold_left (fun s rs => settleFirst rs s) rss sys.

(** ** Notions used in the statements *)

(** Which replies make a step of the analyze pipeline fail. *)
Definition pipelineFails (rs : Replies) : bool :=
  match analysisReply rs with
  | Throw _ => true
  | Normal _ =>
      match referenceReply rs with
      | Throw _ => true
      | Normal _ =>
          match landmarksReply rs with
          | Throw _ => true
          | Normal _ => false
          end
      end
  end.

(** The analysis that is in the session once the pipeline has stopped: the
    new one if scene analysis succeeded, else the one of [s]. *)
Definition analysisKept (rs : Replies) (s : AppState)
  : option AnalysisResult :=
  match analysisReply rs with
  | Normal a => Some a
  | Throw _ => analysisResult s
  end.

(** The reference image that is in the session once the pipeline has
    stopped: the new one if reference generation was reached and
    succeeded, else the one of [s]. *)
Definition referenceKept (rs : Replies) (s : AppState) : option string :=
  match analysisReply rs, referenceReply rs with
  | Normal _, Normal img => Some img
  | _, _ => generatedPoseImage s
  end.

(** The saves of a history, oldest first, applied to a gallery. *)
Definition prependAll (imgs : list GalleryImage) (g : list GalleryImage)
  : list GalleryImage :=
  fold_left (fun acc img => prepend img acc) imgs g.

Definition flag (b : bool) : nat := if b then 1 else 0.

(** Each busy flag is set exactly while one invocation of its own branch is
    suspended, and there is never more than one such invocation. *)
Definition flagsMatch (sys : System) : Prop :=
  analyzing sys = flag (isAnalyzing (app sys)) /\
  grading sys = flag (isGrading (app sys)).

(** What may follow a numeral: neither a digit nor the start of a fraction
    or an exponent. *)
Definition endsNumber (s : string) : bool :=
  match s with
  | String c _ =>
      match JSON.digit c with
      | Some _ => false
      | None => negb (JSON.fractionAhead s)
      end
  | EmptyString => true
  end.

(** The first character of a numeral. *)
Definition startsNumber (c : ascii) : bool :=
  Ascii.eqb c "-"
  || match JSON.digit c with Some _ => true | None => false end.

(** A value whose text parses back to it with [n] units of fuel, whatever
    follows that may follow a value. *)
Definition parsesBack (n : nat) (v : JSON.value) : Prop :=
  forall (fuel : nat) (rest : string),
    n <= fuel -> endsNumber rest = true ->
    JSON.parseValue fuel (JSON.stringify v ++ rest) = Some (v, rest).

(** The text of one member of an object. *)
Definition member (m : string * JSON.value) : string :=
  (JSON.quote (fst m) ++ String ":" (JSON.stringify (snd m)))%string.

(** ** Sample data *)

Definition candidLean : AnalysisResult :=
  {| environment := "Bedroom";
     lighting := {| quality := GoodLight; direction := "From left";
                    lighting_suggestion := "Turn 45 degrees right" |};
     background := {| clutterLevel := Moderate;
                      background_suggestion := "Step away from wall" |};
     suggestedPose := {| title := "Candid Lean";
                         description :=
                           "Lean on the door frame, one hand in pocket";
                         difficulty := Easy;
                         steps := ["Chin up";
                                   "Hand in pocket";
                                   "Shift weight to the back leg"]
                      |} |}.

Definition goodMatch : PoseFeedback :=
  {| score := 72; matchStatus := Good;
     adjustments := ["Chin up"; "Relax shoulders"] |}.

Definition noImage : exn := Error "No image generated".

(** Scene analysis succeeds, reference generation is rejected. *)
Definition referenceFails : Replies :=
  {| analysisReply := Normal candidLean;
     referenceReply := Throw noImage;
     landmarksReply := Normal None;
     feedbackReply := Normal goodMatch |}.

(** Every call succeeds; no landmarks are found. *)
Definition allSucceed : Replies :=
  {| analysisReply := Normal candidLean;
     referenceReply := Normal "UkVG";
     landmarksReply := Normal None;
     feedbackReply := Normal goodMatch |}.

Definition shot : Capture :=
  {| frame := Some "RlJBTUU="; now_id := 1700000000000;
     now_ts := 1700000000000 |}.

(** A fresh session after one successful analyze: a pose is suggested, no
    grade has been made. *)
Definition suggestedSession : AppState :=
  fst (dispatch analyze allSucceed (initialState []) 0 0 "RlJBTUU=").

(** A saved shot numbered [n]. *)
Definition savedShot (n : Z) : GalleryImage :=
  {| id := JS.toString n; imageData := "RlJBTUU=";
     referenceImage := Some "UkVG"; image_score := 72; timestamp := n |}.

(** Twenty entries, the latest (20) first. *)
Definition fullGallery : list GalleryImage :=
  map (fun n => savedShot (Z.of_nat n)) (rev (seq 1 20)).

(** A parser that accepts only the JSON [null]. *)
Definition parseNullOnly (t : string) : completion (option PoseLandmarks) :=
  if String.eqb t "null" then Normal None
  else Throw (Error "SyntaxError").

Definition landmarkReplies
           (r : completion geminiService.GenerateContentResponse)
  : Replies :=
  {| analysisReply := Normal candidLean;
     referenceReply := Normal "UkVG";
     landmarksReply := geminiService.extractPoseLandmarks parseNullOnly r;
     feedbackReply := Normal goodMatch |}.

(** A fresh session in which Suggest Pose was clicked and scene analysis
    has come back: the analyze invocation is now awaiting the reference
    image. *)
Definition midAnalyze : System :=
  let sys := perform (onClick SuggestPoseButton) shot (initialSystem []) in
  absorb (resume (AwaitAnalysis FEMALE CASUAL) (Normal candidLean) (app sys))
         [] sys.

(** The same session after Check Alignment is clicked before the reference
    image has arrived. *)
Definition bothBusy : System :=
  perform (onClick CheckAlignmentButton) shot midAnalyze.

(** A storage that holds [blob] under the gallery key and nothing else. *)
Definition holding (blob : string) : localStorage.Storage :=
  {| localStorage.items :=
       fun k => if String.eqb k galleryKey then Some blob else None;
     localStorage.blocked := false;
     localStorage.accepts := fun _ _ => true |}.

Definition emptyStorage : localStorage.Storage :=
  {| localStorage.items := fun _ => None;
     localStorage.blocked := false;
     localStorage.accepts := fun _ _ => true |}.

(** A storage that is full: it holds [blob] and rejects every write. *)
Definition fullStorage (blob : string) : localStorage.Storage :=
  {| localStorage.items :=
       fun k => if String.eqb k galleryKey then Some blob else None;
     localStorage.blocked := false;
     localStorage.accepts := fun _ _ => false |}.

(** A run in which a pose is suggested, graded at 72 and the shot saved. *)
Definition suggestedSystem : System :=
  settleAll [allSucceed; allSucceed; allSucceed]
    (perform (onClick SuggestPoseButton) shot (initialSystem [])).

Definition gradingSystem : System :=
  perform (onClick CheckAlignmentButton) shot suggestedSystem.

Definition gradedSystem : System := settleFirst allSucceed gradingSystem.

Definition savedSystem : System :=
  perform (onClick CapturePhotoButton) shot gradedSystem.

(** * Properties *)

(** ** Dispatch *)

(** Every dispatched invocation runs to its end: three settlements are
    enough for it to be past its last [await]. *)
Lemma run_finishes (i : Intent) (rs : Replies) (s : AppState) (t1 t2 : Z)
      (img : string) :
  awaiting (fst (run i rs s t1 t2 img)) = None.
Proof.
  unfold run, handleCaptureFrame.
  cbn [captureIntent setCaptureIntent analysisResult].
  destruct rs as [ra rr rl rf]. destruct i.
  - destruct ra, rr, rl; reflexivity.
  - destruct (analysisResult s); [destruct rf |]; reflexivity.
  - reflexivity.
Qed.

(** ** The analyze pipeline *)




(** ** Grade without an analysis *)

(** C5: a capture dispatched with intent [grade] while no AnalysisResult is
    present issues no service call, and PoseFeedback, the (absent)
    AnalysisResult, the reference image, the landmarks and the gallery are
    what they were.  (The handler still clears the error and the saved
    message and leaves the grading flag false.) *)
Theorem grade_without_analysis (rs : Replies) (s : AppState)
        (t1 t2 : Z) (img : string) :
  analysisResult s = None ->
  awaiting (handleCaptureFrame (setCaptureIntent grade s) t1 t2 img) = None /\
  snd (dispatch grade rs s t1 t2 img) = [] /\
  let s' := fst (dispatch grade rs s t1 t2 img) in
  poseFeedback s' = poseFeedback s /\
  analysisResult s' = None /\
  generatedPoseImage s' = generatedPoseImage s /\
  poseLandmarks s' = poseLandmarks s /\
  gallery s' = gallery s /\
  isAnalyzing s' = isAnalyzing s /\
  isGrading s' = false /\
  error s' = None.
Proof.
  intros Hnone. unfold dispatch, run, handleCaptureFrame.
  cbn [captureIntent setCaptureIntent analysisResult]. rewrite Hnone.
  cbn. rewrite Hnone. repeat split.
Qed.

Lemma grade_without_analysis_witness :
  analysisResult (initialState []) = None /\
  snd (dispatch grade allSucceed (initialState []) 0 0 "RlJBTUU=") = [].
Proof.
  split; [reflexivity |].
  apply (grade_without_analysis allSucceed (initialState []) 0 0 "RlJBTUU="
           eq_refl).
Defined.

(** ** Save *)

Lemma save_dispatch (rs : Replies) (s : AppState) (t1 t2 : Z)
      (img : string) :
  dispatch save rs s t1 t2 img =
  (setAutoSaveMessage (Some savedMessage)
     (setGallery (prepend (newImage s t1 t2 img))
        (setFlash true
           (setAutoSaveMessage None
              (setError None (setCaptureIntent save s))))), []).
Proof. reflexivity. Qed.

Lemma prepend_head (img : GalleryImage) (g : list GalleryImage) :
  hd_error (prepend img g) = Some img.
Proof. reflexivity. Qed.

(** C4, as the spec states it, fails: with a pose suggested and no grade
    made, the control that triggers a save is not rendered, and no other
    control triggers a save. *)
Lemma save_not_offered_before_grading :
  analysisResult suggestedSession = Some candidLean /\
  poseFeedback suggestedSession = None /\
  forall c : Control,
    onClick c = Trigger save -> clickable suggestedSession c = false.
Proof.
  repeat split.
  intros c H. destruct c; simpl in H; try discriminate H. reflexivity.
Qed.

(** C4 (amended): the save trigger is offered exactly when a pose has been
    suggested and a PoseFeedback with a score above 50 is recorded, so it
    depends on grading; the save dispatch itself is not blocked by the
    absence of a grade: dispatched with no PoseFeedback recorded it makes no
    service call and puts a GalleryImage with score 0 at the front of the
    gallery. *)
Theorem save_gate_and_default_score :
  (forall (s : AppState) (c : Control),
      onClick c = Trigger save ->
      (clickable s c = true <->
       (exists a, analysisResult s = Some a) /\
       (exists fb, poseFeedback s = Some fb /\ (50 < score fb)%Z))) /\
  (forall (rs : Replies) (s : AppState) (t1 t2 : Z) (img : string),
      poseFeedback s = None ->
      snd (dispatch save rs s t1 t2 img) = [] /\
      exists entry,
        gallery (fst (dispatch save rs s t1 t2 img))
        = prepend entry (gallery s) /\
        hd_error (gallery (fst (dispatch save rs s t1 t2 img)))
        = Some entry /\
        imageData entry = img /\
        image_score entry = 0%Z).
Proof.
  split.
  - intros s c Hc.
    destruct c; simpl in Hc; try discriminate Hc.
    unfold clickable, rendered, disabled, hasAnalysis, scoreAbove50.
    rewrite andb_true_r.
    destruct (analysisResult s) as [a |]; simpl.
    + destruct (poseFeedback s) as [fb |]; simpl.
      * rewrite Z.ltb_lt. split.
        -- intros H. split; [exists a; reflexivity |].
           exists fb. split; [reflexivity | exact H].
        -- intros [_ [fb' [Hfb H]]]. injection Hfb as <-. exact H.
      * split; [discriminate |].
        intros [_ [fb' [Hfb _]]]. discriminate Hfb.
    + split; [discriminate |].
      intros [[a Ha] _]. discriminate Ha.
  - intros rs s t1 t2 img Hnone. rewrite save_dispatch. simpl.
    split; [reflexivity |].
    exists (newImage s t1 t2 img). repeat split.
    unfold newImage. simpl. rewrite Hnone. reflexivity.
Qed.

Lemma save_gate_and_default_score_witness :
  image_score (newImage (initialState []) 5 5 "RlJBTUU=") = 0%Z /\
  snd (dispatch save allSucceed (initialState []) 5 5 "RlJBTUU=") = [].
Proof.
  split; [reflexivity |].
  apply (proj2 save_gate_and_default_score allSucceed (initialState []) 5%Z
           5%Z "RlJBTUU=" eq_refl).
Defined.



(** A save triggered from the rendered controls stores a score above
    50. *)
Lemma clicked_save_score (s : AppState) (c : Control) (t1 t2 : Z)
      (img : string) :
  onClick c = Trigger save ->
  clickable s c = true ->
  (50 < image_score (newImage s t1 t2 img))%Z.
Proof.
  intros Hc Hclick.
  destruct c; cbn in Hc; try discriminate Hc.
  unfold clickable, rendered, scoreAbove50 in Hclick.
  unfold newImage, scoreOrZero. cbn [image_score].
  destruct (poseFeedback s) as [fb |].
  - rewrite !andb_true_iff in Hclick. destruct Hclick as [[_ Hs] _].
    apply Z.ltb_lt in Hs.
    destruct (Z.eqb_spec (score fb) 0) as [Hz | _]; lia.
  - rewrite andb_false_r in Hclick. discriminate Hclick.
Qed.

(** The score stored by a save in general: the recorded feedback's score,
    0 when none is recorded. *)
Lemma save_score (s : AppState) (t1 t2 : Z) (img : string) :
  image_score (newImage s t1 t2 img)
  = match poseFeedback s with
    | Some fb => score fb
    | None => 0%Z
    end.
Proof.
  unfold newImage, scoreOrZero. simpl.
  destruct (poseFeedback s) as [fb |]; [| reflexivity].
  destruct (Z.eqb_spec (score fb) 0) as [-> | _]; reflexivity.
Qed.

(** ** The gallery *)

Lemma prepend_length (img : GalleryImage) (g : list GalleryImage) :
  List.length (prepend img g) <= 20.
Proof. unfold prepend. apply firstn_le_length. Qed.

Lemma firstn_app_firstn {A : Type} (n : nat) (l r : list A) :
  firstn n (l ++ firstn n r) = firstn n (l ++ r).
Proof.
  rewrite !firstn_app. f_equal.
  rewrite firstn_firstn. f_equal. lia.
Qed.

Lemma prependAll_spec (imgs g : list GalleryImage) :
  List.length g <= 20 ->
  prependAll imgs g = firstn 20 (rev imgs ++ g).
Proof.
  revert g. induction imgs as [| img imgs IH]; intros g Hg.
  - cbn [prependAll fold_left rev app].
    symmetry. apply firstn_all2. exact Hg.
  - change (prependAll (img :: imgs) g)
      with (prependAll imgs (prepend img g)).
    rewrite IH by apply prepend_length.
    unfold prepend. rewrite firstn_app_firstn.
    cbn [rev]. rewrite <- app_assoc. reflexivity.
Qed.

Lemma firstn_removelast {A : Type} (l : list A) (n : nat) :
  List.length l = S n -> firstn n l = removelast l.
Proof.
  revert n. induction l as [| a l IH]; intros n Hlen; [discriminate |].
  destruct l as [| b l].
  - injection Hlen as <-. reflexivity.
  - destruct n as [| n]; [discriminate |].
    rewrite firstn_cons. rewrite (IH n) by (simpl in *; lia). reflexivity.
Qed.

(** C3: each save replaces the gallery by [prepend entry gallery]; after
    any save the gallery has at most 20 entries, and a gallery that starts
    within the bound stays within it over every sequence of saves; the
    gallery after a sequence of saves is the saved entries, latest first,
    followed by the earlier gallery, cut at 20; a save on a gallery of
    exactly 20 entries puts the new entry first and drops the last (oldest)
    entry only. *)
Theorem gallery_bounded_newest_first :
  (forall (rs : Replies) (s : AppState) (t1 t2 : Z) (img : string),
      gallery (fst (dispatch save rs s t1 t2 img))
      = prepend (newImage s t1 t2 img) (gallery s)) /\
  (forall (img : GalleryImage) (g : list GalleryImage),
      List.length (prepend img g) <= 20) /\
  (forall imgs g : list GalleryImage,
      List.length g <= 20 ->
      List.length (prependAll imgs g) <= 20 /\
      prependAll imgs g = firstn 20 (rev imgs ++ g)) /\
  (forall (img : GalleryImage) (imgs g : list GalleryImage),
      List.length (prependAll (img :: imgs) g) <= 20 /\
      prependAll (img :: imgs) g = firstn 20 (rev (img :: imgs) ++ g)) /\
  (forall (img : GalleryImage) (g : list GalleryImage),
      List.length g = 20 ->
      prepend img g = img :: removelast g /\
      List.length (prepend img g) = 20).
Proof.
  split; [| split; [| split; [| split]]].
  - intros. reflexivity.
  - apply prepend_length.
  - intros imgs g Hg. rewrite prependAll_spec by exact Hg.
    split; [apply firstn_le_length | reflexivity].
  - intros img imgs g.
    change (prependAll (img :: imgs) g)
      with (prependAll imgs (prepend img g)).
    rewrite prependAll_spec by apply prepend_length.
    split; [apply firstn_le_length |].
    unfold prepend. rewrite firstn_app_firstn.
    cbn [rev]. rewrite <- app_assoc. reflexivity.
  - intros img g Hg. unfold prepend.
    change 20 with (S 19) at 1 3. rewrite firstn_cons.
    rewrite (firstn_removelast g (n := 19)) by exact Hg.
    split; [reflexivity |].
    cbn [List.length]. f_equal.
    rewrite <- (firstn_removelast g (n := 19)) by exact Hg.
    rewrite length_firstn. rewrite Hg. reflexivity.
Qed.

Lemma gallery_bounded_newest_first_witness :
  List.length fullGallery = 20 /\
  prepend (savedShot 21) fullGallery
  = savedShot 21 :: map (fun n => savedShot (Z.of_nat n)) (rev (seq 2 19)).
Proof.
  split; [reflexivity |].
  apply (proj2 (proj2 (proj2 (proj2 gallery_bounded_newest_first)))
           (savedShot 21) fullGallery eq_refl).
Defined.

Lemma remove_keeps (target : string) (g : list GalleryImage) :
  ~ In target (map id g) -> remove target g = g.
Proof.
  induction g as [| img g IH]; intros Hnot; [reflexivity |].
  cbn [remove filter].
  destruct (String.eqb_spec (id img) target) as [Heq | Hne].
  - exfalso. apply Hnot. left. exact Heq.
  - cbn [negb]. f_equal. apply IH. intros Hin. apply Hnot. right. exact Hin.
Qed.

Lemma remove_absent (target : string) (g : list GalleryImage) :
  ~ In target (map id (remove target g)).
Proof.
  intros Hin. apply in_map_iff in Hin. destruct Hin as [img [Hid Hin]].
  apply filter_In in Hin. destruct Hin as [_ Hkeep].
  rewrite <- Hid in Hkeep. rewrite String.eqb_refl in Hkeep.
  discriminate Hkeep.
Qed.

(** C7: [deleteFromGallery] replaces the gallery by [remove id gallery];
    removing the same id a second time changes nothing more, and removing
    an id that no entry carries returns the gallery as it was. *)
Theorem remove_idempotent (target : string) :
  (forall s : AppState,
      gallery (deleteFromGallery target s) = remove target (gallery s)) /\
  (forall g : list GalleryImage,
      remove target (remove target g) = remove target g) /\
  (forall s : AppState,
      deleteFromGallery target (deleteFromGallery target s)
      = deleteFromGallery target s) /\
  (forall g : list GalleryImage,
      ~ In target (map id g) -> remove target g = g).
Proof.
  assert (Hidem : forall g, remove target (remove target g)
                            = remove target g).
  { intros g. apply remove_keeps. apply remove_absent. }
  split; [| split; [| split]].
  - reflexivity.
  - exact Hidem.
  - intros s. unfold deleteFromGallery, setGallery. cbn -[remove].
    rewrite Hidem. reflexivity.
  - apply remove_keeps.
Qed.

Lemma remove_idempotent_witness :
  remove "99" fullGallery = fullGallery.
Proof.
  apply (proj2 (proj2 (proj2 (remove_idempotent "99"))) fullGallery).
  vm_compute. intuition discriminate.
Defined.

(** ** Landmark extraction *)

Section Landmarks.

Variable JSON_parse : string -> completion (option PoseLandmarks).

Local Abbreviation extract :=
  (geminiService.extractPoseLandmarks JSON_parse).
Local Abbreviation noLandmarks := (geminiService.noLandmarks JSON_parse).

Lemma extractPoseLandmarks_returns
      (response : completion geminiService.GenerateContentResponse) :
  returns (extract response).
Proof.
  unfold geminiService.extractPoseLandmarks, returns, try_catch, bind.
  destruct response as [r | e]; [| eauto].
  destruct (geminiService.text r) as [t |]; [| eauto].
  destruct (truthy (Some t)); [| eauto].
  destruct (JSON_parse t); eauto.
Qed.

Lemma extractPoseLandmarks_null
      (response : completion geminiService.GenerateContentResponse) :
  noLandmarks response = true -> extract response = Normal None.
Proof.
  unfold geminiService.extractPoseLandmarks, geminiService.noLandmarks,
    try_catch, bind.
  destruct response as [r | e]; [| reflexivity].
  destruct (geminiService.text r) as [t |]; [| reflexivity].
  destruct (truthy (Some t)); [| reflexivity].
  destruct (JSON_parse t) as [[lm |] | e]; try reflexivity.
  discriminate.
Qed.


End Landmarks.


(** ** The busy flags *)

Lemma count_split (f : ServiceCall * Suspended -> bool)
      (before after : list (ServiceCall * Suspended))
      (p : ServiceCall * Suspended) :
  List.length (filter f (before ++ p :: after))
  = flag (f p) + List.length (filter f (before ++ after)).
Proof.
  rewrite !filter_app, !length_app. cbn [filter].
  destruct (f p); cbn [flag List.length]; lia.
Qed.

Lemma flagsMatch_finished (sys : System) (s : AppState) :
  isAnalyzing s = isAnalyzing (app sys) ->
  isGrading s = isGrading (app sys) ->
  flagsMatch sys ->
  flagsMatch (absorb (finished s) (inflight sys) sys).
Proof.
  unfold flagsMatch, analyzing, grading. cbn. intros -> ->. tauto.
Qed.

Lemma clickable_analyze (s : AppState) (c : Control) :
  onClick c = Trigger analyze -> clickable s c = true ->
  isAnalyzing s = false.
Proof.
  unfold clickable.
  destruct c; cbn; intros H; try discriminate H;
    rewrite andb_true_iff, !negb_true_iff; tauto.
Qed.

Lemma clickable_grade (s : AppState) (c : Control) :
  onClick c = Trigger grade -> clickable s c = true ->
  isGrading s = false /\ exists a, analysisResult s = Some a.
Proof.
  unfold clickable, hasAnalysis.
  destruct c; cbn; intros H; try discriminate H;
    rewrite !andb_true_iff, !negb_true_iff;
    unfold hasAnalysis;
    (destruct (analysisResult s) as [a |];
     intros [[Ha _] Hg]; [| discriminate Ha]);
    (split; [exact Hg | exists a; reflexivity]).
Qed.

Lemma flagsMatch_click (sys : System) (c : Control) (cap : Capture) :
  clickable (app sys) c = true ->
  flagsMatch sys ->
  flagsMatch (perform (onClick c) cap sys).
Proof.
  intros Hclick Hinv.
  destruct (onClick c) as [i | | g | st | target] eqn:Hact;
    try (apply flagsMatch_finished; [reflexivity | reflexivity | exact Hinv]).
  unfold perform, trigger.
  destruct (frame cap) as [img |];
    [| apply flagsMatch_finished; [reflexivity | reflexivity | exact Hinv]].
  destruct Hinv as [Ha Hg].
  destruct i.
  - pose proof (clickable_analyze _ c Hact Hclick) as Hidle.
    unfold flagsMatch, analyzing, grading in *. cbn.
    rewrite Hidle in Ha. cbn in Ha. rewrite Ha. split; [reflexivity |].
    exact Hg.
  - destruct (clickable_grade _ c Hact Hclick) as [Hidle [a Hsome]].
    unfold flagsMatch, analyzing, grading in *.
    unfold handleCaptureFrame. cbn. rewrite Hsome. cbn.
    rewrite Hidle in Hg. cbn in Hg. rewrite Hg. split; [| reflexivity].
    exact Ha.
  - unfold flagsMatch, analyzing, grading in *. cbn. split; assumption.
Qed.

Lemma flagsMatch_settle (sys : System)
      (before after : list (ServiceCall * Suspended))
      (c : ServiceCall) (k : Suspended) (r : Settled k) :
  inflight sys = before ++ (c, k) :: after ->
  flagsMatch sys ->
  flagsMatch (absorb (resume k r (app sys)) (before ++ after) sys).
Proof.
  intros Hin [Ha Hg].
  unfold flagsMatch, analyzing, grading in *.
  rewrite Hin in Ha, Hg. rewrite count_split in Ha, Hg.
  destruct k; cbn in r; destruct r as [v | e];
    cbn in Ha, Hg |- *;
    destruct (isAnalyzing (app sys)); destruct (isGrading (app sys));
    cbn in Ha, Hg |- *; split; lia.
Qed.

Lemma flagsMatch_step (sys sys' : System) :
  step sys sys' -> flagsMatch sys -> flagsMatch sys'.
Proof.
  intros Hstep Hinv. destruct Hstep as [sys c cap Hc | sys b a c k r Hin
                                       | sys b a t Ht].
  - apply flagsMatch_click; assumption.
  - exact (@flagsMatch_settle sys b a c k r Hin Hinv).
  - destruct Hinv as [Ha Hg]. unfold flagsMatch, analyzing, grading in *.
    destruct t; cbn; split; assumption.
Qed.

Lemma flagsMatch_reachable (g : list GalleryImage) (sys : System) :
  reachable g sys -> flagsMatch sys.
Proof.
  induction 1 as [| sys sys' _ IH Hstep].
  - split; reflexivity.
  - exact (flagsMatch_step Hstep IH).
Qed.

Lemma midAnalyze_reachable : reachable [] midAnalyze.
Proof.
  eapply reachable_step.
  - eapply reachable_step; [apply reachable_init |].
    apply (step_click (initialSystem []) SuggestPoseButton shot).
    reflexivity.
  - apply (@step_settle
             (perform (onClick SuggestPoseButton) shot (initialSystem []))
             [] []
             (analyzeSceneAndSuggest "RlJBTUU=" FEMALE CASUAL)
             (AwaitAnalysis FEMALE CASUAL) (Normal candidLean)).
    reflexivity.
Qed.

Lemma bothBusy_reachable : reachable [] bothBusy.
Proof.
  eapply reachable_step; [apply midAnalyze_reachable |].
  apply (step_click midAnalyze CheckAlignmentButton shot). reflexivity.
Qed.

(** C2, as the spec states it, fails: while the analyze pipeline of a fresh
    session is outstanding (analyzing flag set), the grade trigger is
    rendered and enabled, and clicking it sets the grading flag too. *)
Lemma busy_flags_both_set :
  reachable [] midAnalyze /\
  isAnalyzing (app midAnalyze) = true /\
  clickable (app midAnalyze) CheckAlignmentButton = true /\
  onClick CheckAlignmentButton = Trigger grade /\
  reachable [] bothBusy /\
  isAnalyzing (app bothBusy) = true /\
  isGrading (app bothBusy) = true.
Proof.
  split; [apply midAnalyze_reachable |].
  split; [reflexivity |].
  split; [reflexivity |].
  split; [reflexivity |].
  split; [apply bothBusy_reachable |].
  split; reflexivity.
Qed.

(** C2 (amended): each busy flag gates its own trigger only: an analyze
    trigger is disabled exactly while the analyzing flag is set, a grade
    trigger exactly while the grading flag is set, and the save trigger is
    never disabled.  So in every reachable state at most one analyze
    invocation and at most one grade invocation are outstanding, and each
    flag is set exactly while its own invocation is outstanding; the two
    flags may be set together. *)
Theorem busy_flags_gate_own_trigger (g : list GalleryImage) (sys : System) :
  reachable g sys ->
  analyzing sys = flag (isAnalyzing (app sys)) /\
  grading sys = flag (isGrading (app sys)) /\
  (forall c, onClick c = Trigger analyze ->
             disabled (app sys) c = isAnalyzing (app sys)) /\
  (forall c, onClick c = Trigger grade ->
             disabled (app sys) c = isGrading (app sys)) /\
  (forall c, onClick c = Trigger save -> disabled (app sys) c = false).
Proof.
  intros Hreach. destruct (flagsMatch_reachable Hreach) as [Ha Hg].
  split; [exact Ha |]. split; [exact Hg |].
  repeat split; intros c Hc; destruct c; cbn in Hc; try discriminate Hc;
    reflexivity.
Qed.

Lemma busy_flags_gate_own_trigger_witness :
  analyzing bothBusy = 1 /\ grading bothBusy = 1.
Proof.
  destruct (busy_flags_gate_own_trigger bothBusy_reachable) as [Ha [Hg _]].
  split; [exact Ha | exact Hg].
Defined.

(** The gallery bound also holds along every run of the application,
    deletions included. *)
Lemma remove_length (target : string) (g : list GalleryImage) :
  List.length (remove target g) <= List.length g.
Proof. apply filter_length_le. Qed.

Lemma gallery_bounded_step (sys sys' : System) :
  step sys sys' ->
  List.length (gallery (app sys)) <= 20 ->
  List.length (gallery (app sys')) <= 20.
Proof.
  intros Hstep Hlen.
  destruct Hstep as [sys c cap _ | sys b a c k r _ | sys b a t _].
  - destruct (onClick c) as [i | | gd | st | target]; cbn -[prepend remove];
      try exact Hlen.
    + unfold trigger. destruct (frame cap) as [img |]; [| exact Hlen].
      destruct i; unfold handleCaptureFrame; cbn -[prepend];
        try exact Hlen.
      * destruct (analysisResult (app sys)); exact Hlen.
      * apply prepend_length.
    + pose proof (remove_length target (gallery (app sys))). lia.
  - destruct k; cbn in r; destruct r; exact Hlen.
  - destruct t; exact Hlen.
Qed.

Lemma gallery_bounded_reachable (g : list GalleryImage) (sys : System) :
  List.length g <= 20 ->
  reachable g sys ->
  List.length (gallery (app sys)) <= 20.
Proof.
  intros Hg. induction 1 as [| sys sys' _ IH Hstep].
  - exact Hg.
  - exact (gallery_bounded_step Hstep IH).
Qed.

(** ** The JSON round trip of a gallery *)

Lemma append_assoc (a b c : string) :
  ((a ++ b) ++ c = a ++ (b ++ c))%string.
Proof.
  induction a as [| ch a IH]; cbn; [reflexivity |].
  rewrite IH. reflexivity.
Qed.

Lemma length_append (a b : string) :
  String.length (a ++ b) = String.length a + String.length b.
Proof.
  induction a as [| ch a IH]; cbn; [reflexivity |].
  rewrite IH. reflexivity.
Qed.

Lemma stringBody_quoteChar (c : ascii) (rest : string) :
  JSON.stringBody (JSON.quoteChar c ++ rest)
  = JSON.push c (JSON.stringBody rest).
Proof.
  destruct c as [[] [] [] [] [] [] [] []]; reflexivity.
Qed.

Lemma stringBody_quoteBody (s rest : string) :
  JSON.stringBody (JSON.quoteBody s ++ String JSON.dquote rest)
  = Some (s, rest).
Proof.
  induction s as [| c s IH].
  - reflexivity.
  - cbn [JSON.quoteBody]. rewrite append_assoc, stringBody_quoteChar, IH.
    reflexivity.
Qed.

Lemma digits_end (rest : string) :
  endsNumber rest = true -> JSON.digits rest = (Decimal.Nil, rest).
Proof.
  destruct rest as [| c rest]; [reflexivity |].
  cbn [endsNumber JSON.digits].
  destruct (JSON.digit c); [discriminate | reflexivity].
Qed.

Lemma digits_string_of_uint (d : Decimal.uint) (rest : string) :
  endsNumber rest = true ->
  JSON.digits (NilEmpty.string_of_uint d ++ rest) = (d, rest).
Proof.
  intros Hend. induction d; cbn -[JSON.digits];
    try (cbn [JSON.digits]; cbn [JSON.digit Ascii.eqb Bool.eqb];
         rewrite IHd; reflexivity).
  apply digits_end. exact Hend.
Qed.

Lemma integerPart_to_uint (p : positive) :
  JSON.integerPart (Pos.to_uint p) = true.
Proof.
  pose proof (Unsigned.to_of (Pos.to_uint p)) as Hnorm.
  rewrite Unsigned.of_to in Hnorm. cbn [N.to_uint] in Hnorm.
  pose proof (Unsigned.to_uint_nonnil p) as Hnil.
  destruct (Pos.to_uint p) as [| d | d | d | d | d | d | d | d | d | d] eqn:E;
    try reflexivity; [contradiction |].
  cbn [JSON.integerPart]. destruct d; try reflexivity; exfalso.
  all: rewrite DecimalFacts.unorm_D0 in Hnorm;
    match type of Hnorm with
    | _ = Decimal.unorm ?u =>
        assert (Hu : u <> Decimal.Nil) by discriminate;
        pose proof (DecimalFacts.nb_digits_unorm u Hu) as Hle;
        rewrite <- Hnorm in Hle; cbn in Hle; lia
    end.
Qed.

Lemma endsNumber_fraction (rest : string) :
  endsNumber rest = true -> JSON.fractionAhead rest = false.
Proof.
  destruct rest as [| c rest]; [reflexivity |].
  cbn [endsNumber]. destruct (JSON.digit c); [discriminate |].
  apply negb_true_iff.
Qed.

Lemma unsignedNumber_to_uint (p : positive) (rest : string) :
  endsNumber rest = true ->
  JSON.unsignedNumber (NilEmpty.string_of_uint (Pos.to_uint p) ++ rest)
  = Some (Pos.to_uint p, rest).
Proof.
  intros Hend. unfold JSON.unsignedNumber.
  rewrite digits_string_of_uint by exact Hend.
  rewrite integerPart_to_uint, endsNumber_fraction by exact Hend.
  reflexivity.
Qed.

Lemma string_of_uint_head (d : Decimal.uint) (rest : string) :
  d <> Decimal.Nil ->
  exists c tail,
    (NilEmpty.string_of_uint d ++ rest)%string = String c tail /\
    Ascii.eqb c "-" = false /\
    JSON.isWhitespace c = false /\
    JSON.digit c <> None.
Proof.
  intros Hd. destruct d; [contradiction | ..];
    eexists; eexists; (split; [reflexivity |]);
    (split; [reflexivity |]); (split; [reflexivity | discriminate]).
Qed.

Lemma nilzero_to_uint (p : positive) :
  NilZero.string_of_uint (Pos.to_uint p)
  = NilEmpty.string_of_uint (Pos.to_uint p).
Proof.
  pose proof (Unsigned.to_uint_nonnil p) as Hnil.
  destruct (Pos.to_uint p); [contradiction | reflexivity ..].
Qed.

Lemma number_toString (z : Z) (rest : string) :
  endsNumber rest = true ->
  JSON.number (toString z ++ rest) = Some (z, rest).
Proof.
  intros Hend. unfold toString.
  destruct z as [| p | p]; cbn [Z.to_int NilZero.string_of_int].
  - cbn. unfold JSON.unsignedNumber.
    cbn [JSON.digits JSON.digit Ascii.eqb Bool.eqb].
    rewrite digits_end by exact Hend. cbn [JSON.integerPart andb].
    rewrite endsNumber_fraction by exact Hend. reflexivity.
  - rewrite nilzero_to_uint.
    destruct (string_of_uint_head rest (Unsigned.to_uint_nonnil p))
      as [c [tail [Heq [Hminus _]]]].
    unfold JSON.number.
    pose proof (unsignedNumber_to_uint p rest Hend) as Hnum.
    rewrite Heq in *. rewrite Hminus, Hnum.
    f_equal. f_equal. exact (DecimalZ.of_to (Z.pos p)).
  - rewrite nilzero_to_uint. cbn [append JSON.number Ascii.eqb Bool.eqb].
    rewrite unsignedNumber_to_uint by exact Hend.
    f_equal. f_equal. exact (DecimalZ.of_to (Z.neg p)).
Qed.

Lemma quote_append (s rest : string) :
  (JSON.quote s ++ rest)%string
  = String JSON.dquote (JSON.quoteBody s ++ String JSON.dquote rest).
Proof.
  unfold JSON.quote. cbn [append]. rewrite append_assoc. reflexivity.
Qed.

Lemma parseValue_string (fuel : nat) (s rest : string) :
  JSON.parseValue (S fuel) (JSON.quote s ++ rest)
  = Some (JSON.Str s, rest).
Proof.
  rewrite quote_append.
  change (JSON.parseValue (S fuel) (String JSON.dquote ?x))
    with (match JSON.stringBody x with
          | Some (str, r) => Some (JSON.Str str, r)
          | None => None
          end).
  rewrite stringBody_quoteBody. reflexivity.
Qed.

Lemma parseValue_null (fuel : nat) (rest : string) :
  JSON.parseValue (S fuel) ("null" ++ rest) = Some (JSON.Null, rest).
Proof. reflexivity. Qed.

Lemma parseValue_number_head (fuel : nat) (c : ascii) (tail : string) :
  startsNumber c = true ->
  JSON.parseValue (S fuel) (String c tail)
  = match JSON.number (String c tail) with
    | Some (n, r) => Some (JSON.Number n, r)
    | None => None
    end.
Proof.
  destruct c as [[] [] [] [] [] [] [] []]; intros H; try discriminate H;
    reflexivity.
Qed.

Lemma toString_head (z : Z) (rest : string) :
  exists c tail,
    (toString z ++ rest)%string = String c tail /\ startsNumber c = true.
Proof.
  unfold toString.
  destruct z as [| p | p]; cbn [Z.to_int NilZero.string_of_int].
  - eexists; eexists; split; reflexivity.
  - rewrite nilzero_to_uint.
    pose proof (Unsigned.to_uint_nonnil p) as Hnil.
    destruct (Pos.to_uint p); [contradiction | ..];
      eexists; eexists; split; reflexivity.
  - eexists; eexists; split; reflexivity.
Qed.

Lemma parseValue_number (fuel : nat) (z : Z) (rest : string) :
  endsNumber rest = true ->
  JSON.parseValue (S fuel) (toString z ++ rest)
  = Some (JSON.Number z, rest).
Proof.
  intros Hend.
  destruct (toString_head z rest) as [c [tail [Heq Hc]]].
  pose proof (number_toString z rest Hend) as Hnum.
  rewrite Heq in *. rewrite parseValue_number_head by exact Hc.
  rewrite Hnum. reflexivity.
Qed.

Lemma parseMembers_step (fuel : nat) (key text : string) :
  JSON.parseMembers (S fuel) (JSON.quote key ++ String ":" text)
  = match JSON.parseValue fuel text with
    | None => None
    | Some (v, r3) =>
        match JSON.skipWhitespace r3 with
        | EmptyString => None
        | String c r4 =>
            if Ascii.eqb c "," then
              match JSON.parseMembers fuel r4 with
              | Some (ms, r5) => Some (JSON.define key v ms, r5)
              | None => None
              end
            else if Ascii.eqb c "}" then Some ([(key, v)], r4)
            else None
        end
    end.
Proof.
  rewrite quote_append.
  change (JSON.parseMembers (S fuel) (String JSON.dquote ?x))
    with (match JSON.stringBody x with
          | None => None
          | Some (key, r1) =>
              match JSON.skipWhitespace r1 with
              | EmptyString => None
              | String colon r2 =>
                  if Ascii.eqb colon ":" then
                    match JSON.parseValue fuel r2 with
                    | None => None
                    | Some (v, r3) =>
                        match JSON.skipWhitespace r3 with
                        | EmptyString => None
                        | String c r4 =>
                            if Ascii.eqb c "," then
                              match JSON.parseMembers fuel r4 with
                              | Some (ms, r5) =>
                                  Some (JSON.define key v ms, r5)
                              | None => None
                              end
                            else if Ascii.eqb c "}"
                                 then Some ([(key, v)], r4)
                                 else None
                        end
                    end
                  else None
              end
          end).
  rewrite stringBody_quoteBody. reflexivity.
Qed.

Lemma lookup_absent (key : string) (ms : list (string * JSON.value)) :
  ~ In key (map fst ms) -> JSON.lookup key ms = None.
Proof.
  induction ms as [| [k v] ms IH]; intros Hnot; [reflexivity |].
  cbn [JSON.lookup]. destruct (String.eqb_spec k key) as [Heq | _].
  - exfalso. apply Hnot. left. exact Heq.
  - apply IH. intros Hin. apply Hnot. right. exact Hin.
Qed.

Lemma member_append (m : string * JSON.value) (rest : string) :
  (member m ++ rest)%string
  = (JSON.quote (fst m) ++ String ":" (JSON.stringify (snd m) ++ rest))%string.
Proof. unfold member. rewrite append_assoc. reflexivity. Qed.

Lemma parseMembers_members (n : nat) (ms : list (string * JSON.value)) :
  ms <> [] ->
  Forall (fun m => parsesBack n (snd m)) ms ->
  NoDup (map fst ms) ->
  forall (fuel : nat) (rest : string),
    S n + List.length ms <= S fuel ->
    JSON.parseMembers fuel
      (JSON.commaSeparated member ms ++ String "}" rest)
    = Some (ms, rest).
Proof.
  induction ms as [| [k v] ms IH]; intros Hne Hall Hdup fuel rest Hfuel;
    [contradiction |].
  inversion Hall as [| m ms' Hv Hrest]; subst.
  inversion Hdup as [| k' ks Hfresh Hdup']; subst.
  destruct fuel as [| fuel]; [cbn in Hfuel; lia |].
  cbn [JSON.commaSeparated].
  destruct ms as [| m' ms].
  - rewrite member_append, parseMembers_step. cbn [fst snd].
    rewrite Hv by (cbn in Hfuel; lia || reflexivity). reflexivity.
  - rewrite append_assoc, member_append, parseMembers_step.
    cbn [fst snd append].
    rewrite Hv by (cbn in Hfuel; lia || reflexivity).
    cbn [JSON.skipWhitespace JSON.isWhitespace Ascii.eqb Bool.eqb orb].
    rewrite IH; [| discriminate | exact Hrest | exact Hdup'
                 | cbn [List.length] in *; lia].
    unfold JSON.define. rewrite lookup_absent by exact Hfresh. reflexivity.
Qed.

Lemma parseElements_step (fuel : nat) (text : string) :
  JSON.parseElements (S fuel) text
  = match JSON.parseValue fuel text with
    | None => None
    | Some (v, r) =>
        match JSON.skipWhitespace r with
        | EmptyString => None
        | String c r' =>
            if Ascii.eqb c "," then
              match JSON.parseElements fuel r' with
              | Some (vs, r'') => Some (v :: vs, r'')
              | None => None
              end
            else if Ascii.eqb c "]" then Some ([v], r')
            else None
        end
    end.
Proof. reflexivity. Qed.

Lemma parseElements_elements (n : nat) (vs : list JSON.value) :
  vs <> [] ->
  Forall (parsesBack n) vs ->
  forall (fuel : nat) (rest : string),
    S n + List.length vs <= S fuel ->
    JSON.parseElements fuel
      (JSON.commaSeparated JSON.stringify vs ++ String "]" rest)
    = Some (vs, rest).
Proof.
  induction vs as [| v vs IH]; intros Hne Hall fuel rest Hfuel;
    [contradiction |].
  inversion Hall as [| v' vs' Hv Hrest]; subst.
  destruct fuel as [| fuel]; [cbn in Hfuel; lia |].
  rewrite parseElements_step. cbn [JSON.commaSeparated].
  destruct vs as [| v' vs].
  - rewrite Hv by (cbn in Hfuel; lia || reflexivity). reflexivity.
  - rewrite append_assoc. cbn [append].
    rewrite Hv by (cbn in Hfuel; lia || reflexivity).
    cbn [JSON.skipWhitespace JSON.isWhitespace Ascii.eqb Bool.eqb orb].
    rewrite IH; [reflexivity | discriminate | exact Hrest
                 | cbn [List.length] in *; lia].
Qed.

Lemma parsesBack_string (s : string) : parsesBack 1 (JSON.Str s).
Proof.
  intros fuel rest Hfuel _. destruct fuel as [| fuel]; [lia |].
  apply parseValue_string.
Qed.

Lemma parsesBack_null : parsesBack 1 JSON.Null.
Proof.
  intros fuel rest Hfuel _. destruct fuel as [| fuel]; [lia |].
  apply parseValue_null.
Qed.

Lemma parsesBack_number (z : Z) : parsesBack 1 (JSON.Number z).
Proof.
  intros fuel rest Hfuel Hend. destruct fuel as [| fuel]; [lia |].
  apply parseValue_number. exact Hend.
Qed.

Lemma parsesBack_nullable (o : option string) : parsesBack 1 (nullable o).
Proof.
  destruct o; [apply parsesBack_string | apply parsesBack_null].
Qed.

Lemma parseValue_object_step (fuel : nat) (tail : string) :
  JSON.parseValue (S fuel) (String "{" (String JSON.dquote tail))
  = match JSON.parseMembers fuel (String JSON.dquote tail) with
    | Some (ms, r') => Some (JSON.Object ms, r')
    | None => None
    end.
Proof. reflexivity. Qed.

Lemma parsesBack_object (n : nat) (ms : list (string * JSON.value)) :
  ms <> [] ->
  Forall (fun m => parsesBack n (snd m)) ms ->
  NoDup (map fst ms) ->
  parsesBack (S n + List.length ms) (JSON.Object ms).
Proof.
  intros Hne Hall Hdup fuel rest Hfuel _.
  destruct fuel as [| fuel]; [cbn in Hfuel; lia |].
  cbn [JSON.stringify append]. rewrite append_assoc. cbn [append].
  fold member.
  pose proof (@parseMembers_members n ms Hne Hall Hdup fuel rest Hfuel)
    as Hms.
  destruct ms as [| m ms]; [contradiction |].
  assert (Hhead : exists tail,
             (JSON.commaSeparated member (m :: ms) ++ String "}" rest)%string
             = String JSON.dquote tail).
  { cbn [JSON.commaSeparated].
    destruct ms; [| rewrite append_assoc]; rewrite member_append;
      rewrite quote_append; eexists; reflexivity. }
  destruct Hhead as [tail Htail]. rewrite Htail in *.
  rewrite parseValue_object_step, Hms. reflexivity.
Qed.

Lemma parsesBack_image (img : GalleryImage) : parsesBack 7 (imageValue img).
Proof.
  unfold imageValue.
  apply (@parsesBack_object 1
           [("id", JSON.Str (id img));
            ("imageData", JSON.Str (imageData img));
            ("referenceImage", nullable (referenceImage img));
            ("score", JSON.Number (image_score img));
            ("timestamp", JSON.Number (timestamp img))]).
  - discriminate.
  - repeat constructor; cbn [snd];
      auto using parsesBack_string, parsesBack_nullable, parsesBack_number.
  - repeat constructor; cbn; intuition discriminate.
Qed.

Lemma stringify_image_head (img : GalleryImage) :
  exists tail,
    JSON.stringify (imageValue img)
    = String "{" (String JSON.dquote (String "i" (String "d"
        (String JSON.dquote (String ":" (String JSON.dquote tail)))))).
Proof.
  unfold imageValue. cbn [JSON.stringify JSON.commaSeparated fst snd].
  unfold JSON.quote at 1 2. cbn [JSON.quoteBody JSON.quoteChar append].
  eexists. reflexivity.
Qed.

Lemma stringify_image_length (img : GalleryImage) :
  7 <= String.length (JSON.stringify (imageValue img)).
Proof.
  destruct (stringify_image_head img) as [tail ->]. cbn [String.length]. lia.
Qed.

Lemma commaSeparated_length (g : list GalleryImage) :
  7 * List.length g
  <= String.length (JSON.commaSeparated JSON.stringify (map imageValue g)).
Proof.
  induction g as [| img g IH]; [cbn; lia |].
  cbn [map JSON.commaSeparated List.length].
  pose proof (stringify_image_length img) as Himg.
  destruct g as [| img' g].
  - cbn [map List.length]. lia.
  - cbn [map] in *. rewrite length_append. cbn [String.length List.length] in *.
    lia.
Qed.

Lemma parseValue_array_step (fuel : nat) (tail : string) :
  JSON.parseValue (S fuel) (String "[" (String "{" tail))
  = match JSON.parseElements fuel (String "{" tail) with
    | Some (vs, r') => Some (JSON.Array vs, r')
    | None => None
    end.
Proof. reflexivity. Qed.

Lemma parse_stringify_gallery (g : list GalleryImage) :
  JSON.parse (JSON.stringify (galleryValue g)) = Normal (galleryValue g).
Proof.
  destruct g as [| img g]; [reflexivity |].
  unfold JSON.parse, galleryValue.
  pose proof (commaSeparated_length (img :: g)) as Hlen.
  assert (Hall : Forall (parsesBack 7) (map imageValue (img :: g))).
  { apply Forall_forall. intros v Hin. apply in_map_iff in Hin.
    destruct Hin as [i [<- _]]. apply parsesBack_image. }
  assert (Hne : map imageValue (img :: g) <> []) by discriminate.
  pose proof (fun fuel H =>
                @parseElements_elements 7 (map imageValue (img :: g))
                  Hne Hall fuel EmptyString H) as Hparse.
  rewrite length_map in Hparse.
  cbn [JSON.stringify String.length].
  rewrite length_append. cbn [String.length].
  remember (JSON.commaSeparated JSON.stringify (map imageValue (img :: g)))
    as body eqn:Hbody.
  assert (Hhead : exists tail, (body ++ "]")%string = String "{" tail).
  { rewrite Hbody. cbn [map JSON.commaSeparated].
    destruct (stringify_image_head img) as [tail ->].
    destruct (map imageValue g); cbn [append]; eexists; reflexivity. }
  destruct Hhead as [tail Htail].
  specialize (Hparse (S (String.length body + 1))).
  rewrite Htail in *.
  rewrite parseValue_array_step.
  rewrite Hparse by (cbn [List.length] in *; lia).
  reflexivity.
Qed.

(** ** Loading and persisting the gallery *)




Lemma imageValue_inj (a b : GalleryImage) :
  imageValue a = imageValue b -> a = b.
Proof.
  destruct a as [i1 d1 r1 s1 t1], b as [i2 d2 r2 s2 t2].
  unfold imageValue. cbn. intros H.
  injection H as Hi Hd Hr Hs Ht. subst.
  f_equal. destruct r1, r2; cbn in Hr; congruence.
Qed.

Lemma galleryValue_inj (g g' : list GalleryImage) :
  galleryValue g' = galleryValue g -> g' = g.
Proof.
  unfold galleryValue. intros H. injection H as H.
  revert g H. induction g' as [| a g' IH]; intros [| b g] H;
    try discriminate H; [reflexivity |].
  cbn [map] in H.
  remember (imageValue a) as va eqn:Hva.
  remember (imageValue b) as vb eqn:Hvb.
  injection H as Hhead Htail. subst va vb.
  f_equal; [apply imageValue_inj; exact Hhead | apply IH; exact Htail].
Qed.

Lemma stringify_gallery_truthy (g : list GalleryImage) :
  truthy (Some (JSON.stringify (galleryValue g))) = true.
Proof. reflexivity. Qed.



(** A write that the storage rejects is swallowed: the stored copy stays
    as it was, and the next load reads the earlier blob. *)
Lemma persist_rejected (g : list GalleryImage) (st : localStorage.Storage) :
  localStorage.accepts st galleryKey (JSON.stringify (galleryValue g))
  = false ->
  persistGallery JSON.stringify g st = st.
Proof.
  intros Hfull. unfold persistGallery, localStorage.setItem.
  rewrite Hfull. destruct (localStorage.blocked st); reflexivity.
Qed.

Example persist_rejected_example :
  loadGallery JSON.parse
    (persistGallery JSON.stringify fullGallery (fullStorage "[]"))
  = Normal (JSON.Array []).
Proof. reflexivity. Qed.
